(** * starter: template cache synchronisation and generation pipeline

    A shallow embedding of [main.go]: the template cache ([getTempaltes],
    [downloadTemplates], [downloadSingleFile]), the generation pipeline
    ([analyze]) and the start-up and shutdown logic of [main].

    The program is effectful.  Its effects are modelled by explicit state
    passing over a [World] (file system, HTTP request counter, I/O trace,
    the detected pack object and the package-level template directories),
    in a state-and-error monad: a Go function returning [(T, error)] becomes
    a computation returning [result T], and the state survives an error,
    as files written before a failure stay on disk.  What the program
    obtains from outside (HTTP answers, JSON decoding, the operating system,
    the detection packs) is collected in the records [Env] and
    [packs.Pack].  Console output ([common.Print...], [fmt.Print...]) is not
    part of the model. *)

From Stdlib Require Import String Ascii List Bool Arith Lia.
From stdpp Require Import base option gmap strings list.

Import ListNotations.
Local Open Scope string_scope.
Local Open Scope list_scope.

(** ** Strings: the two functions of Go's [strings] package the code uses *)

(** [strings.Contains(s, substr)]: [substr] occurs in [s]. *)
Fixpoint Contains (s substr : string) : bool :=
  String.prefix substr s ||
  match s with
  | EmptyString => false
  | String _ s' => Contains s' substr
  end.

(** [strings.Replace(s, old, new, -1)] for a non-empty [old]: every
    non-overlapping occurrence, left to right.  [skip] counts the
    characters of a matched occurrence still to be dropped. *)
Fixpoint replace_from (skip : nat) (s old new : string) : string :=
  match s with
  | EmptyString => EmptyString
  | String c s' =>
      match skip with
      | S k => replace_from k s' old new
      | O =>
          if String.prefix old s
          then new ++ replace_from (String.length old - 1) s' old new
          else String c (replace_from 0 s' old new)
      end
  end.

(** With an empty [old], Go inserts [new] before every character and at
    the end. *)
Fixpoint insert_each (new s : string) : string :=
  match s with
  | EmptyString => new
  | String c s' => new ++ String c (insert_each new s')
  end.

Definition Replace (s old new : string) : string :=
  match old with
  | EmptyString => insert_each new s
  | _ => replace_from 0 s old new
  end.

(** ** Data model (main.go, lines 20-66) *)

Record downloadFile := mkDownloadFile {
  URL : string;
  Name : string
}.

Record analysisResult := mkAnalysisResult {
  Warnings : list string;
  OK : bool;
  Language : string;
  Framework : string;
  FrameworkVersion : string
}.

Record templateDefinition := mkTemplateDefinition {
  Version : string;
  Dockerfiles : list downloadFile;
  ServiceYmls : list downloadFile;
  DockerComposeYmls : list downloadFile
}.

Definition templatePath : string :=
  "https://raw.githubusercontent.com/cloud66/starter/{{.branch}}/templates/templates.json".

(** The package-level flag variables, as [flag.Parse] leaves them. *)
Record Flags := mkFlags {
  flagPath : string;
  flagNoPrompt : bool;
  flagEnvironment : string;
  flagTemplates : string;
  flagBranch : string;
  flagVersion : string;
  flagGenerator : string;
  flagOverwrite : bool;
  flagConfig : string;
  flagDaemon : bool
}.

(** The defaults registered in [init] (lines 74-87). *)
Definition defaultFlags : Flags :=
  {| flagPath := ""; flagNoPrompt := false; flagEnvironment := "production";
     flagTemplates := ""; flagBranch := "master"; flagVersion := "";
     flagGenerator := "dockerfile"; flagOverwrite := false;
     flagConfig := ""; flagDaemon := false |}.

(** ** Results and errors *)

(** A Go [(T, error)]: a value, or the error's message. *)
Inductive result (A : Type) : Type :=
| Ok (a : A)
| Err (e : string).
Arguments Ok {A} a.
Arguments Err {A} e.

(** What [os.Stat] reports, as far as the code tells the cases apart:
    [err == nil], [os.IsNotExist(err)], or another error. *)
Inductive StatResult := StatNil | StatNotExist | StatOther (e : string).

Definition IsNotExist (r : StatResult) : bool :=
  match r with StatNotExist => true | _ => false end.

Definition stat_nil (r : StatResult) : bool :=
  match r with StatNil => true | _ => false end.

(** ** The I/O trace: every call that leaves the process, with its outcome *)

Inductive Event :=
| EFetch (url : string) (r : result string)
| EStat (p : string) (r : StatResult)
| EMkdirAll (p : string) (r : option string)
| EReadFile (p : string) (r : result string)
| ECreate (p : string) (r : option string)
| ECopy (p : string) (written : string) (r : option string)
| EGetwd (r : result string)
| EDetect (path : string) (r : option string)
| EAnalyze (path environment : string) (interactive : bool) (r : option string)
| EWriteDockerfile (templateDir path : string) (interactive : bool) (r : option string)
| EWriteServiceYAML (templateDir path : string) (interactive : bool) (r : option string)
| EWriteDockerComposeYAML (templateDir path : string) (interactive : bool) (r : option string).

(** ** The outside of the program *)

(** The detection collaborator: [Detect] and the methods of the pack it
    returns.  A pack is a mutable object; a method takes the object and the
    file system and gives back its error, the object and the file system. *)
Module packs.
Record Pack := mkPack {
  carrier : Type;
  Detect : string -> gmap string string ->
           result carrier * gmap string string;
  Analyze : carrier -> string -> string -> bool -> gmap string string ->
            option string * carrier * gmap string string;
  WriteDockerfile : carrier -> string -> string -> bool -> gmap string string ->
                    option string * carrier * gmap string string;
  WriteServiceYAML : carrier -> string -> string -> bool -> gmap string string ->
                     option string * carrier * gmap string string;
  WriteDockerComposeYAML : carrier -> string -> string -> bool -> gmap string string ->
                           option string * carrier * gmap string string;
  GetMessages : carrier -> list string;
  Name : carrier -> string;
  Framework : carrier -> string;
  FrameworkVersion : carrier -> string
}.
End packs.

(** The operating system, the network and the libraries.  [http k url] is
    the answer to the [k]-th HTTP request of the process when it asks for
    [url]: the remote side may change between two requests.  The [_err]
    fields say which paths the file system refuses; [copy_err p] is
    [Some (n, e)] when [io.Copy] into [p] breaks off with [e] after [n]
    bytes. *)
Record Env := mkEnv {
  flags : Flags;
  homedir_Dir : string;
  os_Getwd : result string;
  filepath_Abs : string -> result string;
  filepath_Join : string -> string -> string;
  http : nat -> string -> result string;
  json_Unmarshal : string -> result templateDefinition;
  stat_err : string -> option string;
  mkdir_err : string -> option string;
  read_err : string -> option string;
  create_err : string -> option string;
  copy_err : string -> option (nat * string)
}.

(** ** The state of the process and of the file system *)

Record Globals := mkGlobals {
  serviceYAMLTemplateDir : string;
  dockerfileTemplateDir : string;
  dockerComposeYAMLTemplateDir : string
}.

(** The pack object has the type of the collaborator at hand; the state
    depends on the collaborator through that type only. *)
Record WorldOf (P : Type) := mkWorld {
  w_fs : gmap string string;
  w_reqs : nat;
  w_log : list Event;
  w_pack : option P;
  w_globals : Globals
}.
Arguments mkWorld {P} _ _ _ _ _.
Arguments w_fs {P} _.
Arguments w_reqs {P} _.
Arguments w_log {P} _.
Arguments w_pack {P} _.
Arguments w_globals {P} _.

Abbreviation World C := (WorldOf (packs.carrier C)).

(** State updates. *)

Definition emit {P} (e : Event) (w : WorldOf P) : WorldOf P :=
  mkWorld (w_fs w) (w_reqs w) (w_log w ++ [e]) (w_pack w) (w_globals w).

Definition set_fs {P} (fs : gmap string string) (w : WorldOf P) : WorldOf P :=
  mkWorld fs (w_reqs w) (w_log w) (w_pack w) (w_globals w).

Definition set_pack {P} (p : P) (w : WorldOf P) : WorldOf P :=
  mkWorld (w_fs w) (w_reqs w) (w_log w) (Some p) (w_globals w).

Definition set_globals {P} (g : Globals) (w : WorldOf P) : WorldOf P :=
  mkWorld (w_fs w) (w_reqs w) (w_log w) (w_pack w) g.

Definition next_req {P} (w : WorldOf P) : WorldOf P :=
  mkWorld (w_fs w) (S (w_reqs w)) (w_log w) (w_pack w) (w_globals w).

Section Program.

Variable C : packs.Pack.
Variable E : Env.

Abbreviation pack := (packs.carrier C).
Abbreviation W := (World C).

(** ** The monad *)

Definition M (A : Type) : Type := W -> result A * W.

Definition ret {A} (a : A) : M A := fun w => (Ok a, w).

Definition fail {A} (e : string) : M A := fun w => (Err e, w).

Definition bind {A B} (m : M A) (k : A -> M B) : M B :=
  fun w =>
    match m w with
    | (Ok a, w') => k a w'
    | (Err e, w') => (Err e, w')
    end.

(** [if err != nil { return nil, fmt.Errorf(prefix + "%s", err.Error()) }] *)
Definition wrap {A} (prefix : string) (m : M A) : M A :=
  fun w =>
    match m w with
    | (Ok a, w') => (Ok a, w')
    | (Err e, w') => (Err (prefix ++ e), w')
    end.

Notation "x <- c ;; k" := (bind c (fun x => k))
  (at level 100, c at next level, k at level 200, right associativity).
Notation "'run' c ;; k" := (bind c (fun _ => k))
  (at level 100, c at next level, k at level 200, right associativity).

Definition of_error (o : option string) : result unit :=
  match o with
  | None => Ok tt
  | Some e => Err e
  end.

(** ** Primitives *)

(** Modelled from the spec: [fetch] is a function of this package that is
    not in main.go; the spec's Fetcher "performs a single HTTP retrieval of
    a URL into a byte stream; no state", failing on a transport failure. *)
Definition fetch (url : string) : M string :=
  fun w =>
    let r := http E (w_reqs w) url in
    (r, emit (EFetch url r) (next_req w)).

(** Modelled from the spec: [fetchJSON] is a function of this package that
    is not in main.go; the spec's Registry Client "performs a fetch, parses
    JSON", failing on a transport failure or on malformed JSON. *)
Definition fetchJSON (url : string) : M templateDefinition :=
  body <- fetch url ;;
  fun w => (json_Unmarshal E body, w).

Definition stat_of (p : string) (fs : gmap string string) : StatResult :=
  match stat_err E p with
  | Some e => StatOther e
  | None =>
      match fs !! p with
      | Some _ => StatNil
      | None => StatNotExist
      end
  end.

(** [os.Stat]: the caller inspects the error, so it is returned as a value. *)
Definition os_Stat (p : string) : M StatResult :=
  fun w =>
    let r := stat_of p (w_fs w) in
    (Ok r, emit (EStat p r) w).

Definition os_MkdirAll (p : string) : M unit :=
  fun w =>
    let r := mkdir_err E p in
    (of_error r, emit (EMkdirAll p r) w).

Definition read_of (p : string) (fs : gmap string string) : result string :=
  match read_err E p with
  | Some e => Err e
  | None =>
      match fs !! p with
      | Some c => Ok c
      | None => Err ("open " ++ p ++ ": no such file or directory")
      end
  end.

Definition ioutil_ReadFile (p : string) : M string :=
  fun w =>
    let r := read_of p (w_fs w) in
    (r, emit (EReadFile p r) w).

(** [os.Create]: the file is created, or truncated when it exists. *)
Definition os_Create (p : string) : M unit :=
  fun w =>
    match create_err E p with
    | Some e => (Err e, emit (ECreate p (Some e)) w)
    | None => (Ok tt, emit (ECreate p None) (set_fs (<[p := ""]> (w_fs w)) w))
    end.

(** [io.Copy(output, r)]: the bytes copied before an error stay in the file. *)
Definition io_Copy (p : string) (body : string) : M unit :=
  fun w =>
    match copy_err E p with
    | Some (n, e) =>
        let part := String.substring 0 n body in
        (Err e, emit (ECopy p part (Some e)) (set_fs (<[p := part]> (w_fs w)) w))
    | None =>
        (Ok tt, emit (ECopy p body None) (set_fs (<[p := body]> (w_fs w)) w))
    end.

Definition os_Getwd_call : M string :=
  fun w => (os_Getwd E, emit (EGetwd (os_Getwd E)) w).

(** ** The template cache (main.go, lines 90-190) *)

Definition branchURL (url : string) : string :=
  Replace url "{{.branch}}" (flagBranch (flags E)).

Definition downloadSingleFile (tempDir : string) (temp : downloadFile) : M unit :=
  r <- fetch (branchURL (URL temp)) ;;
  run os_Create (filepath_Join E tempDir (Name temp)) ;;
  run io_Copy (filepath_Join E tempDir (Name temp)) r ;;
  ret tt.

(** [for _, temp := range files { err := downloadSingleFile(tempDir, temp);
    if err != nil { return err } }] *)
Fixpoint downloadEach (tempDir : string) (files : list downloadFile) : M unit :=
  match files with
  | [] => ret tt
  | temp :: rest =>
      run downloadSingleFile tempDir temp ;;
      downloadEach tempDir rest
  end.

Definition manifestFile : downloadFile :=
  {| URL := branchURL templatePath; Name := "templates.json" |}.

Definition downloadTemplates (tempDir : string) (td : templateDefinition) : M unit :=
  run downloadSingleFile tempDir manifestFile ;;
  run downloadEach tempDir (Dockerfiles td) ;;
  run downloadEach tempDir (ServiceYmls td) ;;
  run downloadEach tempDir (DockerComposeYmls td) ;;
  ret tt.

(** Lines 100-113: "is there a local copy?" *)
Definition download_if_absent (tempDir : string) (tv : templateDefinition) : M unit :=
  st <- os_Stat (filepath_Join E tempDir "templates.json") ;;
  if IsNotExist st
  then (run os_MkdirAll tempDir ;; downloadTemplates tempDir tv)
  else ret tt.

(** Lines 115-136: "load the local json" and "compare". *)
Definition download_if_newer (tempDir : string) (tv : templateDefinition) : M unit :=
  templatesLocal <- ioutil_ReadFile (filepath_Join E tempDir "templates.json") ;;
  localTv <- (fun w => (json_Unmarshal E templatesLocal, w)) ;;
  if negb (String.eqb (Version localTv) (Version tv))
  then downloadTemplates tempDir tv
  else ret tt.

Definition getTempaltes (tempDir : string) : M unit :=
  tv <- fetchJSON (branchURL templatePath) ;;
  run download_if_absent tempDir tv ;;
  download_if_newer tempDir tv.

(** ** The generation pipeline (main.go, lines 285-391) *)

(** [pack, err := Detect(path)]: a function of this package that is not in
    main.go, taken from the collaborator. *)
Definition Detect (path : string) : M pack :=
  fun w =>
    match packs.Detect C path (w_fs w) with
    | (Ok p, fs') => (Ok p, emit (EDetect path None) (set_pack p (set_fs fs' w)))
    | (Err e, fs') => (Err e, emit (EDetect path (Some e)) (set_fs fs' w))
    end.

(** A method call on the pack: the object and the file system are updated,
    also when the method reports an error. *)
Definition call (m : pack -> gmap string string ->
                     option string * pack * gmap string string)
    (ev : option string -> Event) (p : pack) : M pack :=
  fun w =>
    match m p (w_fs w) with
    | (None, p', fs') => (Ok p', emit (ev None) (set_pack p' (set_fs fs' w)))
    | (Some e, p', fs') => (Err e, emit (ev (Some e)) (set_pack p' (set_fs fs' w)))
    end.

Definition pack_Analyze (p : pack) (path environment : string) (interactive : bool) : M pack :=
  call (fun q => packs.Analyze C q path environment interactive)
       (EAnalyze path environment interactive) p.

Definition pack_WriteDockerfile (p : pack) (templateDir path : string) (interactive : bool) : M pack :=
  call (fun q => packs.WriteDockerfile C q templateDir path interactive)
       (EWriteDockerfile templateDir path interactive) p.

Definition pack_WriteServiceYAML (p : pack) (templateDir path : string) (interactive : bool) : M pack :=
  call (fun q => packs.WriteServiceYAML C q templateDir path interactive)
       (EWriteServiceYAML templateDir path interactive) p.

Definition pack_WriteDockerComposeYAML (p : pack) (templateDir path : string) (interactive : bool) : M pack :=
  call (fun q => packs.WriteDockerComposeYAML C q templateDir path interactive)
       (EWriteDockerComposeYAML templateDir path interactive) p.

Definition get_globals : M Globals := fun w => (Ok (w_globals w), w).

(** [dockerfileTemplateDir = templates], and so for the two other
    directories. *)
Definition set_template_dirs (templates : string) : M unit :=
  fun w => (Ok tt, set_globals (mkGlobals templates templates templates) w).

(** The message of the two errors of the overwrite guard. *)
Definition already_exists (file : string) : string :=
  file ++ " already exists. Use overwrite flag to overwrite it".

(** Lines 294-300. *)
Definition resolve_path (path : string) : M string :=
  if String.eqb path ""
  then wrap "Unable to detect current directory path due to " os_Getwd_call
  else ret path.

(** Lines 304-329.  In the second branch [templates, err := filepath.Abs(...)]
    declares a new [templates], which is empty when [Abs] fails. *)
Definition resolve_templates (updateTemplates : bool) (templates : string) : M unit :=
  if String.eqb templates ""
  then
    let templates := filepath_Join E (homedir_Dir E) ".starter" in
    run (if updateTemplates
         then wrap "Failed to download latest templates due to " (getTempaltes templates)
         else ret tt) ;;
    set_template_dirs templates
  else
    match filepath_Abs E templates with
    | Err e => fail ("Failed to use " ++ "" ++ " for templates due to " ++ e)
    | Ok templates => set_template_dirs templates
    end.

(** Lines 294-336: everything up to and including detection. *)
Definition analyze_detect (updateTemplates : bool) (path templates : string)
    : M (string * pack) :=
  path <- resolve_path path ;;
  run resolve_templates updateTemplates templates ;;
  p <- wrap "Failed to detect framework due to: " (Detect path) ;;
  ret (path, p).

(** Lines 338-353: the overwrite guard, once per guarded file. *)
Definition check_overwrite (path file : string) (overwrite : bool) : M unit :=
  st <- os_Stat (filepath_Join E path file) ;;
  if stat_nil st
  then (if negb overwrite then fail (already_exists file) else ret tt)
  else ret tt.

(** Lines 379-383: [result.Warnings] starts as nil. *)
Definition collect_warnings (msgs : list string) : list string :=
  if Nat.ltb 0 (List.length msgs)
  then fold_left (fun warnings warning => warnings ++ [warning]) msgs []
  else [].

(** Lines 338-390: guard, analysis, writers, result. *)
Definition analyze_generate (path environment : string)
    (noPrompt overwrite : bool) (generator : string) (p : pack)
    : M analysisResult :=
  run check_overwrite path "Dockerfile" overwrite ;;
  run check_overwrite path "service.yml" overwrite ;;
  p <- wrap "Failed to analyze the project due to: "
         (pack_Analyze p path environment (negb noPrompt)) ;;
  g <- get_globals ;;
  p <- wrap "Failed to write Dockerfile due to: "
         (pack_WriteDockerfile p (dockerfileTemplateDir g) path (negb noPrompt)) ;;
  g <- get_globals ;;
  p <- (if Contains generator "service"
        then wrap "Failed to write service.yml due to: "
               (pack_WriteServiceYAML p (serviceYAMLTemplateDir g) path (negb noPrompt))
        else ret p) ;;
  g <- get_globals ;;
  p <- (if Contains generator "docker-compose"
        then wrap "Failed to write docker-compose.yml due to: "
               (pack_WriteDockerComposeYAML p (dockerComposeYAMLTemplateDir g) path
                  (negb noPrompt))
        else ret p) ;;
  ret {| Warnings := collect_warnings (packs.GetMessages C p);
         OK := true;
         Language := packs.Name C p;
         Framework := packs.Framework C p;
         FrameworkVersion := packs.FrameworkVersion C p |}.

Definition analyze (updateTemplates : bool) (path templates environment : string)
    (noPrompt overwrite : bool) (generator : string) : M analysisResult :=
  pp <- analyze_detect updateTemplates path templates ;;
  analyze_generate (fst pp) environment noPrompt overwrite generator (snd pp).

End Program.

Arguments ret {C A} a.
Arguments fail {C A} e.
Arguments bind {C A B} m k.
Arguments wrap {C A} prefix m.

(** ** Daemon mode: the shutdown handshake (main.go, lines 228-250)

    Two tasks and two channels.  [signalChan] has a buffer of one signal;
    [signal.Notify] sends to it without blocking, so an interrupt that
    finds the buffer full is dropped.  [cleanupDone] has no buffer: the
    send of the second task and the receive of [main] happen together.
    The tasks are modelled by their program points and the process by a
    labelled transition system. *)

(** The second task (lines 241-246): blocked in [range signalChan], or
    blocked in [cleanupDone <- true]. *)
Inductive WorkerPC := WRange | WSend.

(** [main]: blocked in [<-cleanupDone] (line 248), or about to call
    [os.Exit(0)] (line 249). *)
Inductive MainPC := MRecv | MExit.

Inductive Proc :=
| Running (sigbuf : bool) (worker : WorkerPC) (main : MainPC)
| Exited (code : nat).

Inductive Label :=
| LSignal       (* the operating system delivers an interrupt *)
| LWorkerRecv   (* the second task takes the signal from signalChan *)
| LHandshake    (* cleanupDone <- true meets <-cleanupDone *)
| LExit.        (* os.Exit(0) *)

Definition dnext (s : Proc) (l : Label) : option Proc :=
  match s, l with
  | Running _ wk m, LSignal => Some (Running true wk m)
  | Running true WRange m, LWorkerRecv => Some (Running false WSend m)
  | Running b WSend MRecv, LHandshake => Some (Running b WRange MExit)
  | Running _ _ MExit, LExit => Some (Exited 0)
  | _, _ => None
  end.

Fixpoint drun (s : Proc) (ls : list Label) : option Proc :=
  match ls with
  | [] => Some s
  | l :: ls' =>
      match dnext s l with
      | Some s' => drun s' ls'
      | None => None
      end
  end.

(** The process when [main] reaches line 248 and no interrupt has been
    delivered since [signal.Notify] (line 231): nothing buffered, both
    tasks blocked.  An interrupt delivered in between waits in the buffer:
    it is the step [LSignal] from this state, to [Running true WRange MRecv]. *)
Definition daemon_init : Proc := Running false WRange MRecv.

Definition internal (l : Label) : bool :=
  match l with LSignal => false | _ => true end.

(** ** [main] (lines 192-283) *)

(** [Config], [ReadFromFile], [SetDefaults], [NewAPI] and [StartAPI] are
    declared in files of this package other than main.go; [main] takes
    them as they are. *)
Record Service := mkService {
  Config : Type;
  zeroConfig : Config;
  SetDefaults : Config -> Config;
  ReadFromFile : string -> gmap string string -> result Config;
  set_template_path : Config -> string -> Config;
  StartAPI : Config -> option string
}.

(** How [main] ends: it returns (exit status 0), it calls [os.Exit], or it
    is serving in daemon mode with the configuration it loaded. *)
Inductive Outcome (S : Service) :=
| Returned
| Exit (code : nat)
| Serving (config : Config S) (d : Proc).
Arguments Returned {S}.
Arguments Exit {S} code.
Arguments Serving {S} config d.

Section Main.

Variable C : packs.Pack.
Variable E : Env.
Variable S : Service.

Definition first_arg_is (args : list string) (a b : string) : bool :=
  match args with
  | [] => false
  | x :: _ => String.eqb x a || String.eqb x b
  end.

(** Lines 208-223: the exit code of a failed start, or the configuration. *)
Definition load_config (config : Config S) (w : World C) : (nat + Config S) * World C :=
  if flagDaemon (flags E) && negb (String.eqb (flagConfig (flags E)) "")
  then
    match os_Stat C E (flagConfig (flags E)) w with
    | (Ok st, w1) =>
        if IsNotExist st
        then (inl 1, w1)
        else
          match ReadFromFile S (flagConfig (flags E)) (w_fs w1) with
          | Err _ => (inl 1, w1)
          | Ok conf => (inr conf, w1)
          end
    | (Err _, w1) => (inl 1, w1)
    end
  else (inr (SetDefaults S config), w).

Definition main (args : list string) (w : World C) : Outcome S * World C :=
  if first_arg_is args "help" "-h" then (Returned, w)
  else if first_arg_is args "version" "-v" then (Returned, w)
  else
    match load_config (zeroConfig S) w with
    | (inl code, w1) => (Exit code, w1)
    | (inr config, w1) =>
        if flagDaemon (flags E)
        then
          let config := set_template_path S config (flagTemplates (flags E)) in
          match StartAPI S config with
          | Some _ => (Exit 1, w1)
          | None => (Serving config daemon_init, w1)
          end
        else
          match analyze C E true (flagPath (flags E)) (flagTemplates (flags E))
                  (flagEnvironment (flags E)) (flagNoPrompt (flags E))
                  (flagOverwrite (flags E)) (flagGenerator (flags E)) w1 with
          | (Err _, w2) => (Exit 1, w2)
          | (Ok _, w2) => (Returned, w2)
          end
    end.

End Main.

(** ** A small concrete world, to run the model on *)

Module Demo.

(** A pack that records what was asked of it and writes fixed contents. *)
Definition demoPack : packs.Pack :=
  {| packs.carrier := list string;
     packs.Detect := fun path fs =>
       (if String.eqb path "/empty" then Err "no supported framework" else Ok [], fs);
     packs.Analyze := fun p path env inter fs =>
       (None, p ++ [("analysed " ++ env)%string], fs);
     packs.WriteDockerfile := fun p tdir path inter fs =>
       (None, p ++ ["wrote Dockerfile"], <[(path ++ "/Dockerfile")%string := "FROM ruby"]> fs);
     packs.WriteServiceYAML := fun p tdir path inter fs =>
       (None, p ++ ["wrote service.yml"], <[(path ++ "/service.yml")%string := "services:"]> fs);
     packs.WriteDockerComposeYAML := fun p tdir path inter fs =>
       (None, p ++ ["wrote docker-compose.yml"],
        <[(path ++ "/docker-compose.yml")%string := "version: 2"]> fs);
     packs.GetMessages := fun p => p;
     packs.Name := fun _ => "Ruby";
     packs.Framework := fun _ => "Rails";
     packs.FrameworkVersion := fun _ => "4.2" |}.

Definition join (a b : string) : string := a ++ "/" ++ b.

Definition manifestURL : string :=
  "https://raw.githubusercontent.com/cloud66/starter/master/templates/templates.json".

Definition manifest (v : string) : templateDefinition :=
  {| Version := v;
     Dockerfiles := [ {| URL := "http://t/{{.branch}}/ruby"; Name := "ruby.dockerfile.template" |} ];
     ServiceYmls := [ {| URL := "http://t/{{.branch}}/service"; Name := "service.yml.template" |} ];
     DockerComposeYmls := [ {| URL := "http://t/{{.branch}}/compose"; Name := "docker-compose.yml.template" |} ] |}.

(** A manifest is written "manifest <version>". *)
Definition decode (body : string) : result templateDefinition :=
  if String.prefix "manifest " body
  then Ok (manifest (String.substring 9 (String.length body - 9) body))
  else Err "invalid character".

(** The remote side serves version [v k] of the manifest to request [k]. *)
Definition serve (v : nat -> string) (k : nat) (url : string) : result string :=
  if String.eqb url manifestURL then Ok ("manifest " ++ v k)%string
  else if String.prefix "http://t/master/" url then Ok ("template of " ++ url)%string
  else Err "404 Not Found".

Definition env (v : nat -> string) (fl : Flags) : Env :=
  {| flags := fl;
     homedir_Dir := "/home/u";
     os_Getwd := Ok "/work";
     filepath_Abs := fun p => Ok p;
     filepath_Join := join;
     http := serve v;
     json_Unmarshal := decode;
     stat_err := fun _ => None;
     mkdir_err := fun _ => None;
     read_err := fun _ => None;
     create_err := fun _ => None;
     copy_err := fun _ => None |}.

Definition world (fs : gmap string string) : World demoPack :=
  mkWorld fs 0 [] None (mkGlobals "" "" "").

Definition cacheDir : string := "/home/u/.starter".

(** A cache that holds version [v] of the manifest. *)
Definition cached (v : string) : World demoPack :=
  world {[ "/home/u/.starter/templates.json" := ("manifest " ++ v)%string ]}.

(** A remote side that publishes version 3 right after answering the first
    request with version 2. *)
Definition republished (k : nat) : string :=
  match k with 0 => "2" | _ => "3" end.

(** The same machine, on which the service template cannot be created. *)
Definition env_denied (v : nat -> string) (fl : Flags) : Env :=
  {| flags := fl;
     homedir_Dir := "/home/u";
     os_Getwd := Ok "/work";
     filepath_Abs := fun p => Ok p;
     filepath_Join := join;
     http := serve v;
     json_Unmarshal := decode;
     stat_err := fun _ => None;
     mkdir_err := fun _ => None;
     read_err := fun _ => None;
     create_err := fun p =>
       if String.eqb p "/home/u/.starter/service.yml.template"
       then Some "permission denied" else None;
     copy_err := fun _ => None |}.

(** The machine with the remote side at version 3 throughout. *)
Definition E3 : Env := env (fun _ => "3") defaultFlags.

(** A project at /p with the given files, templates taken from /tpl. *)
Definition generate (overwrite : bool) (generator : string) (fs : gmap string string)
    : result analysisResult * World demoPack :=
  analyze demoPack E3 true "/p" "/tpl" "production" true overwrite generator (world fs).

(** The state in which detection leaves that project. *)
Definition detected (fs : gmap string string) : World demoPack :=
  mkWorld fs 0 [EDetect "/p" None] (Some []) (mkGlobals "/tpl" "/tpl" "/tpl").

(** A project that already has a compose file. *)
Definition composeProject : gmap string string :=
  {[ "/p/docker-compose.yml" := "version: 1" ]}.

Definition rubyEntry : downloadFile :=
  {| URL := "http://t/{{.branch}}/ruby"; Name := "ruby.dockerfile.template" |}.
Definition serviceEntry : downloadFile :=
  {| URL := "http://t/{{.branch}}/service"; Name := "service.yml.template" |}.
Definition composeEntry : downloadFile :=
  {| URL := "http://t/{{.branch}}/compose"; Name := "docker-compose.yml.template" |}.

(** The same machine with a full disk: the copy of the service template
    breaks off after nine bytes. *)
Definition env_full : Env :=
  {| flags := defaultFlags;
     homedir_Dir := "/home/u";
     os_Getwd := Ok "/work";
     filepath_Abs := fun p => Ok p;
     filepath_Join := join;
     http := serve (fun _ => "3");
     json_Unmarshal := decode;
     stat_err := fun _ => None;
     mkdir_err := fun _ => None;
     read_err := fun _ => None;
     create_err := fun _ => None;
     copy_err := fun p =>
       if String.eqb p "/home/u/.starter/service.yml.template"
       then Some (9, "no space left on device") else None |}.

(** The same machine, on which the Dockerfile of the project at /p cannot
    be examined. *)
Definition env_blind : Env :=
  {| flags := defaultFlags;
     homedir_Dir := "/home/u";
     os_Getwd := Ok "/work";
     filepath_Abs := fun p => Ok p;
     filepath_Join := join;
     http := serve (fun _ => "3");
     json_Unmarshal := decode;
     stat_err := fun p =>
       if String.eqb p "/p/Dockerfile" then Some "permission denied" else None;
     mkdir_err := fun _ => None;
     read_err := fun _ => None;
     create_err := fun _ => None;
     copy_err := fun _ => None |}.

(** A pack whose service descriptor writer fails. *)
Definition brokenPack : packs.Pack :=
  {| packs.carrier := list string;
     packs.Detect := fun path fs => (Ok [], fs);
     packs.Analyze := fun p path env inter fs => (None, p ++ ["analysed"], fs);
     packs.WriteDockerfile := fun p tdir path inter fs =>
       (None, p ++ ["wrote Dockerfile"], <[(path ++ "/Dockerfile")%string := "FROM ruby"]> fs);
     packs.WriteServiceYAML := fun p tdir path inter fs =>
       (Some "service template not found", p, fs);
     packs.WriteDockerComposeYAML := fun p tdir path inter fs =>
       (None, p, <[(path ++ "/docker-compose.yml")%string := "version: 2"]> fs);
     packs.GetMessages := fun p => p;
     packs.Name := fun _ => "Ruby";
     packs.Framework := fun _ => "Rails";
     packs.FrameworkVersion := fun _ => "4.2" |}.

(** A cache whose manifest no longer decodes. *)
Definition corrupted : World demoPack :=
  world {[ "/home/u/.starter/templates.json" := "garbage" ]}.

(** A cache that holds an earlier service template. *)
Definition staleService : World demoPack :=
  world {[ "/home/u/.starter/service.yml.template" := "the previous template" ]}.

(** A project that has both guarded files. *)
Definition bothFiles : gmap string string :=
  {[ "/p/Dockerfile" := "FROM old"; "/p/service.yml" := "services: old" ]}.

(** A project with a Dockerfile, and a configuration file for the daemon. *)
Definition oneFile : gmap string string := {[ "/p/Dockerfile" := "FROM old" ]}.

Definition configured : World demoPack :=
  world {[ "/etc/starter.conf" := "port=9090" ]}.

Definition daemonFlags (c : string) : Flags :=
  {| flagPath := ""; flagNoPrompt := false; flagEnvironment := "production";
     flagTemplates := ""; flagBranch := "master"; flagVersion := "";
     flagGenerator := "dockerfile"; flagOverwrite := false;
     flagConfig := c; flagDaemon := true |}.

(** A configuration is a line of text; the API always starts. *)
Definition demoService : Service :=
  {| Config := string;
     zeroConfig := "";
     SetDefaults := fun _ => "defaults";
     ReadFromFile := fun p fs =>
       match fs !! p with
       | Some c => Ok c
       | None => Err "no such file or directory"
       end;
     set_template_path := fun c t => (c ++ ";templates=" ++ t)%string;
     StartAPI := fun _ => None |}.

End Demo.

(** ** Vocabulary of the statements *)

(** What a run appended to the trace. *)
Definition events_since {C} (w w' : World C) : list Event :=
  drop (List.length (w_log w)) (w_log w').

(** The entries of a manifest, in the order [downloadTemplates] visits them. *)
Definition all_entries (td : templateDefinition) : list downloadFile :=
  Dockerfiles td ++ ServiceYmls td ++ DockerComposeYmls td.

(** Where [downloadSingleFile] puts a file. *)
Definition cache_path (E : Env) (tempDir : string) (f : downloadFile) : string :=
  filepath_Join E tempDir (Name f).

(** The trace of one successful [downloadSingleFile], and of a sequence of
    them: the bytes copied into the file are the bytes just fetched. *)
Definition download_events (E : Env) (tempDir : string) (f : downloadFile) (c : string)
    : list Event :=
  [ EFetch (branchURL E (URL f)) (Ok c);
    ECreate (cache_path E tempDir f) None;
    ECopy (cache_path E tempDir f) c None ].

Fixpoint download_log (E : Env) (tempDir : string) (files : list downloadFile)
    (cs : list string) : list Event :=
  match files, cs with
  | f :: files', c :: cs' => download_events E tempDir f c ++ download_log E tempDir files' cs'
  | _, _ => []
  end.

(** The file system after the files were written in this order. *)
Fixpoint store_all (E : Env) (tempDir : string) (files : list downloadFile)
    (cs : list string) (fs : gmap string string) : gmap string string :=
  match files, cs with
  | f :: files', c :: cs' => store_all E tempDir files' cs' (<[cache_path E tempDir f := c]> fs)
  | _, _ => fs
  end.




(** Calls to the pack after detection: analysis and the writers. *)
Definition is_generation (e : Event) : bool :=
  match e with
  | EAnalyze _ _ _ _ | EWriteDockerfile _ _ _ _
  | EWriteServiceYAML _ _ _ _ | EWriteDockerComposeYAML _ _ _ _ => true
  | _ => false
  end.

(** Calls to the operating system and the network. *)
Definition is_io (e : Event) : bool :=
  match e with
  | EFetch _ _ | EStat _ _ | EMkdirAll _ _ | EReadFile _ _
  | ECreate _ _ | ECopy _ _ _ | EGetwd _ => true
  | _ => false
  end.


(** A computation only appends to the trace, and what it appends
    satisfies [P]. *)
Definition emits {C A} (P : Event -> Prop) (m : M C A) : Prop :=
  forall w r w', m w = (r, w') ->
    exists evs, w_log w' = w_log w ++ evs /\ Forall P evs.


(** The state after one successful [downloadSingleFile]. *)
Definition downloaded {C} (E : Env) (tempDir : string) (f : downloadFile) (c : string)
    (w : World C) : World C :=
  mkWorld (<[cache_path E tempDir f := c]> (w_fs w)) (S (w_reqs w))
          (w_log w ++ download_events E tempDir f c) (w_pack w) (w_globals w).

(** An event of the download of [f]: a fetch of its URL, or the creation
    or the filling of its file. *)
Definition about (E : Env) (tempDir : string) (f : downloadFile) (ev : Event) : Prop :=
  match ev with
  | EFetch u _ => u = branchURL E (URL f)
  | ECreate p _ | ECopy p _ _ => p = cache_path E tempDir f
  | _ => False
  end.

(** The state in which [getTempaltes] compares versions when the local
    manifest was there: the remote manifest fetched, the local one found
    and read, nothing written. *)
Definition compared {C} (E : Env) (tempDir b c : string) (w : World C) : World C :=
  mkWorld (w_fs w) (S (w_reqs w))
    (w_log w ++
       [ EFetch (branchURL E templatePath) (Ok b);
         EStat (filepath_Join E tempDir "templates.json")
           (stat_of E (filepath_Join E tempDir "templates.json") (w_fs w));
         EReadFile (filepath_Join E tempDir "templates.json") (Ok c) ])
    (w_pack w) (w_globals w).

(** The remote version stays [v] from request [from] on: every answer to a
    request for the manifest decodes to a manifest of version [v], none of
    whose entries is stored under the name of the manifest file itself. *)
Definition remote_unchanged (E : Env) (tempDir : string) (from : nat) (v : string) : Prop :=
  forall k u b,
    from <= k ->
    u = branchURL E templatePath \/ u = branchURL E (URL (manifestFile E)) ->
    http E k u = Ok b ->
    exists tv,
      json_Unmarshal E b = Ok tv /\ Version tv = v /\
      forall f, In f (all_entries tv) ->
        cache_path E tempDir f <> filepath_Join E tempDir "templates.json".

(** The claim that the manifest file receives the manifest that was
    compared: whatever is copied into templates.json during a sync is the
    body the sync fetched first. *)
Definition writes_compared_manifest {C} (E : Env) (tempDir : string) (w : World C) : Prop :=
  forall b r w' c,
    http E (w_reqs w) (branchURL E templatePath) = Ok b ->
    getTempaltes C E tempDir w = (r, w') ->
    In (ECopy (filepath_Join E tempDir "templates.json") c None) (events_since w w') ->
    c = b.

(** The same collaborator, reporting the messages [g] instead of its own. *)
Definition with_messages (C : packs.Pack) (g : packs.carrier C -> list string) : packs.Pack :=
  {| packs.carrier := packs.carrier C;
     packs.Detect := packs.Detect C;
     packs.Analyze := packs.Analyze C;
     packs.WriteDockerfile := packs.WriteDockerfile C;
     packs.WriteServiceYAML := packs.WriteServiceYAML C;
     packs.WriteDockerComposeYAML := packs.WriteDockerComposeYAML C;
     packs.GetMessages := g;
     packs.Name := packs.Name C;
     packs.Framework := packs.Framework C;
     packs.FrameworkVersion := packs.FrameworkVersion C |}.


(** [os.Stat] finds the file: its error is nil. *)
Definition present {C} (E : Env) (p : string) (w : World C) : Prop :=
  stat_of E p (w_fs w) = StatNil.

(** Every error of a computation satisfies [P]. *)
Definition fails_only {C A} (P : string -> Prop) (m : M C A) : Prop :=
  forall w e w', m w = (Err e, w') -> P e.

(** The claim that a missing configuration path falls back to the
    defaults: in daemon mode, with a [-c] path that [os.Stat] reports as
    not existing, the configuration [main] goes on with is the default
    one. *)
Definition missing_config_falls_back (C : packs.Pack) (E : Env) (S : Service)
    (w : World C) : Prop :=
  flagDaemon (flags E) = true ->
  flagConfig (flags E) <> "" ->
  stat_of E (flagConfig (flags E)) (w_fs w) = StatNotExist ->
  exists w', load_config C E S (zeroConfig S) w = (inr (SetDefaults S (zeroConfig S)), w').

(** The steps a run of the daemon still has to take, in this order, before
    the process has exited. *)
Definition needs (s : Proc) : list Label :=
  match s with
  | Running false WRange MRecv => [LSignal; LWorkerRecv; LHandshake; LExit]
  | Running true WRange MRecv => [LWorkerRecv; LHandshake; LExit]
  | Running _ WSend MRecv => [LHandshake; LExit]
  | Running _ _ MExit => [LExit]
  | Exited _ => []
  end.

(** The steps of its own the process can still take if no further
    interrupt arrives. *)
Definition potential (s : Proc) : nat :=
  match s with
  | Running false WRange MRecv => 0
  | Running true WRange MRecv => 3
  | Running false WSend MRecv => 2
  | Running true WSend MRecv => 3
  | Running false WRange MExit => 1
  | Running true WRange MExit => 2
  | Running _ WSend MExit => 1
  | Exited _ => 0
  end.

Definition signals (ls : list Label) : nat :=
  List.length (List.filter (fun l => negb (internal l)) ls).

Definition own_steps (ls : list Label) : nat :=
  List.length (List.filter internal ls).

(** A computation writes only to paths in [S], removes no file, and
    leaves the pack and the template directories alone. *)
Definition confined {C A} (S : string -> Prop) (m : M C A) : Prop :=
  forall w r w', m w = (r, w') ->
    (forall q, ~ S q -> w_fs w' !! q = w_fs w !! q) /\
    (forall q, is_Some (w_fs w !! q) -> is_Some (w_fs w' !! q)) /\
    w_pack w' = w_pack w /\ w_globals w' = w_globals w.

(** The files a download of the templates of [tv] writes: the manifest
    and the entries of [tv], each under its name joined to the cache
    directory. *)
Definition sync_target (E : Env) (tempDir : string) (tv : templateDefinition)
    (q : string) : Prop :=
  exists f, In f (manifestFile E :: all_entries tv) /\ q = cache_path E tempDir f.

(** The machine can store [f] in the cache and the remote side always
    answers for it. *)
Definition healthy (E : Env) (tempDir : string) (f : downloadFile) : Prop :=
  create_err E (cache_path E tempDir f) = None /\
  copy_err E (cache_path E tempDir f) = None /\
  forall k, exists c, http E k (branchURL E (URL f)) = Ok c.

(** The I/O of the template cache: requests and everything done to the
    cache directory but the stat. *)
Definition is_cache_io (e : Event) : bool :=
  match e with
  | EFetch _ _ | EMkdirAll _ _ | EReadFile _ _ | ECreate _ _ | ECopy _ _ _ => true
  | _ => false
  end.

(** The project path [analyze] works on: the given one, or the working
    directory when none is given. *)
Definition project_path (E : Env) (path : string) : result string :=
  if String.eqb path "" then os_Getwd E else Ok path.

(** The template directory [analyze] hands to the writers. *)
Definition template_source (E : Env) (templates : string) : result string :=
  if String.eqb templates ""
  then Ok (filepath_Join E (homedir_Dir E) ".starter")
  else filepath_Abs E templates.

(** What a call to the pack is given: the project path [path], the
    environment, the template directory [td] and the interactive flag. *)
Definition addressed (path environment td : string) (interactive : bool) (e : Event)
    : Prop :=
  match e with
  | EDetect p _ => p = path
  | EAnalyze p env i _ => p = path /\ env = environment /\ i = interactive
  | EWriteDockerfile t p i _ | EWriteServiceYAML t p i _
  | EWriteDockerComposeYAML t p i _ => t = td /\ p = path /\ i = interactive
  | _ => True
  end.

(** The error [analyze] returns when a call to the pack reports [e]. *)
Definition failure_of (ev : Event) : option string :=
  match ev with
  | EDetect _ (Some e) => Some ("Failed to detect framework due to: " ++ e)%string
  | EAnalyze _ _ _ (Some e) => Some ("Failed to analyze the project due to: " ++ e)%string
  | EWriteDockerfile _ _ _ (Some e) => Some ("Failed to write Dockerfile due to: " ++ e)%string
  | EWriteServiceYAML _ _ _ (Some e) =>
      Some ("Failed to write service.yml due to: " ++ e)%string
  | EWriteDockerComposeYAML _ _ _ (Some e) =>
      Some ("Failed to write docker-compose.yml due to: " ++ e)%string
  | _ => None
  end.

(** The messages [analyze] puts in front of the error of a step. *)
Definition error_prefixes : list string :=
  [ "Unable to detect current directory path due to ";
    "Failed to download latest templates due to ";
    "Failed to use  for templates due to ";
    "Failed to detect framework due to: ";
    "Failed to analyze the project due to: ";
    "Failed to write Dockerfile due to: ";
    "Failed to write service.yml due to: ";
    "Failed to write docker-compose.yml due to: " ].

Definition pipeline_error (e : string) : Prop :=
  e = already_exists "Dockerfile" \/ e = already_exists "service.yml" \/
  exists prefix msg, In prefix error_prefixes /\ e = (prefix ++ msg)%string.

(** The situations in which a sync gives up before it downloads: the
    remote manifest cannot be fetched or decoded, the cache directory
    cannot be created on first use, or the local manifest is there and
    cannot be read or decoded. *)
Inductive sync_blocked {C} (E : Env) (tempDir : string) (w : World C) : string -> Prop :=
| remote_down e :
    http E (w_reqs w) (branchURL E templatePath) = Err e ->
    sync_blocked E tempDir w e
| remote_malformed b e :
    http E (w_reqs w) (branchURL E templatePath) = Ok b ->
    json_Unmarshal E b = Err e ->
    sync_blocked E tempDir w e
| no_directory b tv e :
    http E (w_reqs w) (branchURL E templatePath) = Ok b ->
    json_Unmarshal E b = Ok tv ->
    stat_of E (filepath_Join E tempDir "templates.json") (w_fs w) = StatNotExist ->
    mkdir_err E tempDir = Some e ->
    sync_blocked E tempDir w e
| local_unreadable b tv e :
    http E (w_reqs w) (branchURL E templatePath) = Ok b ->
    json_Unmarshal E b = Ok tv ->
    stat_of E (filepath_Join E tempDir "templates.json") (w_fs w) <> StatNotExist ->
    read_of E (filepath_Join E tempDir "templates.json") (w_fs w) = Err e ->
    sync_blocked E tempDir w e
| local_malformed b tv c e :
    http E (w_reqs w) (branchURL E templatePath) = Ok b ->
    json_Unmarshal E b = Ok tv ->
    stat_of E (filepath_Join E tempDir "templates.json") (w_fs w) <> StatNotExist ->
    read_of E (filepath_Join E tempDir "templates.json") (w_fs w) = Ok c ->
    json_Unmarshal E c = Err e ->
    sync_blocked E tempDir w e.

(** The events that change the cache directory. *)
Definition is_write (e : Event) : bool :=
  match e with
  | ECreate _ _ | ECopy _ _ _ => true
  | _ => false
  end.

Definition is_fetch (e : Event) : bool :=
  match e with EFetch _ _ => true | _ => false end.

(** * Proofs *)

Section Monad.

Variable C : packs.Pack.

Lemma bind_ok {A B} (m : M C A) (k : A -> M C B) w a w' :
  m w = (Ok a, w') -> bind m k w = k a w'.
Proof. intros H. unfold bind. now rewrite H. Qed.

Lemma bind_err {A B} (m : M C A) (k : A -> M C B) w e w' :
  m w = (Err e, w') -> bind m k w = (Err e, w').
Proof. intros H. unfold bind. now rewrite H. Qed.

Lemma bind_inv_ok {A B} (m : M C A) (k : A -> M C B) w b w' :
  bind m k w = (Ok b, w') ->
  exists a w1, m w = (Ok a, w1) /\ k a w1 = (Ok b, w').
Proof.
  unfold bind. destruct (m w) as [[a|e] w1]; intros H.
  - now exists a, w1.
  - discriminate.
Qed.

Lemma bind_inv_err {A B} (m : M C A) (k : A -> M C B) w e w' :
  bind m k w = (Err e, w') ->
  m w = (Err e, w') \/ exists a w1, m w = (Ok a, w1) /\ k a w1 = (Err e, w').
Proof.
  unfold bind. destruct (m w) as [[a|e1] w1]; intros H.
  - right. now exists a, w1.
  - left. now inversion H.
Qed.

Lemma bind_assoc {A B D} (m : M C A) (k : A -> M C B) (h : B -> M C D) w :
  bind (bind m k) h w = bind m (fun a => bind (k a) h) w.
Proof. unfold bind. destruct (m w) as [[a|e] w1]; reflexivity. Qed.

Lemma bind_ext {A B} (m : M C A) (k k' : A -> M C B) w :
  (forall a w1, k a w1 = k' a w1) -> bind m k w = bind m k' w.
Proof. intros H. unfold bind. destruct (m w) as [[a|e] w1]; auto. Qed.

Lemma wrap_inv_err {A} prefix (m : M C A) w e w' :
  wrap prefix m w = (Err e, w') ->
  exists e0, m w = (Err e0, w') /\ e = (prefix ++ e0)%string.
Proof.
  unfold wrap. destruct (m w) as [[a1|e1] w1]; intros H; inversion H; subst.
  now exists e1.
Qed.

Lemma emits_weaken {A} (P Q : Event -> Prop) (m : M C A) :
  (forall e, P e -> Q e) -> emits P m -> emits Q m.
Proof.
  intros HPQ Hm w r w' H. destruct (Hm _ _ _ H) as (evs & Hl & Hf).
  exists evs. split; [exact Hl|]. eapply Forall_impl; eauto.
Qed.

Lemma emits_ret {A} P (a : A) : emits P (ret (C:=C) a).
Proof.
  intros w r w' H. inversion H; subst. exists []. now rewrite app_nil_r.
Qed.

Lemma emits_fail {A} P e : emits P (fail (C:=C) (A:=A) e).
Proof.
  intros w r w' H. inversion H; subst. exists []. now rewrite app_nil_r.
Qed.

Lemma emits_pure {A} P (f : World C -> result A) :
  emits P (fun w => (f w, w)).
Proof.
  intros w r w' H. inversion H; subst. exists []. now rewrite app_nil_r.
Qed.

Lemma emits_bind {A B} P (m : M C A) (k : A -> M C B) :
  emits P m -> (forall a, emits P (k a)) -> emits P (bind m k).
Proof.
  intros Hm Hk w r w'. unfold bind.
  destruct (m w) as [[a|e] w1] eqn:Em; intros H.
  - destruct (Hm _ _ _ Em) as (ev1 & Hl1 & Hf1).
    destruct (Hk a _ _ _ H) as (ev2 & Hl2 & Hf2).
    exists (ev1 ++ ev2). split.
    + now rewrite Hl2, Hl1, app_assoc.
    + apply Forall_app; auto.
  - inversion H; subst. eauto.
Qed.

Lemma emits_wrap {A} P prefix (m : M C A) :
  emits P m -> emits P (wrap prefix m).
Proof.
  intros Hm w r w'. unfold wrap.
  destruct (m w) as [[a|e] w1] eqn:Em; intros H; inversion H; subst; eauto.
Qed.

Lemma emits_if {A} P (b : bool) (m1 m2 : M C A) :
  emits P m1 -> emits P m2 -> emits P (if b then m1 else m2).
Proof. now destruct b. Qed.

Lemma events_since_app (w w' : World C) evs :
  w_log w' = w_log w ++ evs -> events_since w w' = evs.
Proof.
  intros H. unfold events_since. rewrite H. now rewrite drop_app_length.
Qed.

End Monad.

(** ** The template cache *)

Section Cache.

Variable C : packs.Pack.
Variable E : Env.

Lemma world_eq (w w' : World C) :
  w_fs w = w_fs w' -> w_reqs w = w_reqs w' -> w_log w = w_log w' ->
  w_pack w = w_pack w' -> w_globals w = w_globals w' -> w = w'.
Proof. destruct w, w'; simpl; intros; subst; reflexivity. Qed.

(** *** One file *)

Lemma downloadSingleFile_ok tempDir f c w :
  http E (w_reqs w) (branchURL E (URL f)) = Ok c ->
  create_err E (cache_path E tempDir f) = None ->
  copy_err E (cache_path E tempDir f) = None ->
  downloadSingleFile C E tempDir f w = (Ok tt, downloaded E tempDir f c w).
Proof.
  intros Hh Hc Hy.
  unfold downloadSingleFile, bind, fetch, os_Create, io_Copy, ret, cache_path in *.
  rewrite Hh, Hc, Hy. f_equal.
  apply world_eq; simpl; try reflexivity.
  - now rewrite insert_insert_eq.
  - unfold download_events, cache_path. now rewrite <- !app_assoc.
Qed.

Lemma downloadSingleFile_ok_inv tempDir f w w' :
  downloadSingleFile C E tempDir f w = (Ok tt, w') ->
  exists c,
    http E (w_reqs w) (branchURL E (URL f)) = Ok c /\
    create_err E (cache_path E tempDir f) = None /\
    copy_err E (cache_path E tempDir f) = None /\
    w' = downloaded E tempDir f c w.
Proof.
  intros H.
  destruct (http E (w_reqs w) (branchURL E (URL f))) as [c|e] eqn:Hh;
    [ destruct (create_err E (cache_path E tempDir f)) as [e|] eqn:Hc;
      [ | destruct (copy_err E (cache_path E tempDir f)) as [[n e]|] eqn:Hy ] | ].
  - revert H. unfold downloadSingleFile, bind, fetch, os_Create, cache_path in *.
    rewrite Hh, Hc. discriminate.
  - revert H. unfold downloadSingleFile, bind, fetch, os_Create, io_Copy, cache_path in *.
    rewrite Hh, Hc, Hy. discriminate.
  - rewrite (downloadSingleFile_ok tempDir f c w Hh Hc Hy) in H.
    inversion H. eauto.
  - revert H. unfold downloadSingleFile, bind, fetch. rewrite Hh. discriminate.
Qed.

(** A failed download leaves every other file alone, and removes none. *)
Lemma downloadSingleFile_err tempDir f w e w' :
  downloadSingleFile C E tempDir f w = (Err e, w') ->
  (forall q, q <> cache_path E tempDir f -> w_fs w' !! q = w_fs w !! q) /\
  (forall q, is_Some (w_fs w !! q) -> is_Some (w_fs w' !! q)).
Proof.
  unfold downloadSingleFile, bind, fetch, os_Create, io_Copy, ret, cache_path.
  destruct (http E (w_reqs w) (branchURL E (URL f))) as [c|e1];
    [ destruct (create_err E (filepath_Join E tempDir (Name f))) as [e2|];
      [ | destruct (copy_err E (filepath_Join E tempDir (Name f))) as [[n e3]|] ] | ];
    intros H; inversion H; subst; clear H; simpl.
  - split; auto.
  - split.
    + intros q Hq. now rewrite !lookup_insert_ne by congruence.
    + intros q Hq.
      destruct (decide (filepath_Join E tempDir (Name f) = q)) as [->|Hne].
      * rewrite lookup_insert_eq. eauto.
      * now rewrite !lookup_insert_ne by congruence.
  - split; auto.
Qed.

Lemma emits_downloadSingleFile tempDir f :
  emits (about E tempDir f) (downloadSingleFile C E tempDir f).
Proof.
  unfold downloadSingleFile. apply emits_bind.
  - intros w r w' H. unfold fetch in H. inversion H; subst.
    exists [EFetch (branchURL E (URL f)) (http E (w_reqs w) (branchURL E (URL f)))].
    split; [reflexivity|]. repeat constructor.
  - intros body. apply emits_bind.
    + intros w r w' H. unfold os_Create in H.
      destruct (create_err E (filepath_Join E tempDir (Name f))); inversion H; subst;
        eexists [_]; (split; [reflexivity|]); repeat constructor.
    + intros _. apply emits_bind; [|intros; apply emits_ret].
      intros w r w' H. unfold io_Copy in H.
      destruct (copy_err E (filepath_Join E tempDir (Name f))) as [[n e]|];
        inversion H; subst; eexists [_]; (split; [reflexivity|]); repeat constructor.
Qed.

(** *** A sequence of files *)

Lemma downloadEach_app tempDir l1 l2 w :
  downloadEach C E tempDir (l1 ++ l2) w =
  bind (downloadEach C E tempDir l1) (fun _ => downloadEach C E tempDir l2) w.
Proof.
  revert w. induction l1 as [|f l1 IH]; intros w; simpl.
  - reflexivity.
  - rewrite bind_assoc. apply bind_ext. intros _ w1. apply IH.
Qed.

(** [downloadTemplates] is the loop over the manifest file followed by the
    three lists. *)
Lemma downloadTemplates_each tempDir td w :
  downloadTemplates C E tempDir td w =
  downloadEach C E tempDir (manifestFile E :: all_entries td) w.
Proof.
  unfold downloadTemplates, all_entries. simpl.
  apply bind_ext. intros _ w1.
  rewrite downloadEach_app. unfold bind.
  destruct (downloadEach C E tempDir (Dockerfiles td) w1) as [[[]|e] w2]; [|reflexivity].
  rewrite downloadEach_app. unfold bind.
  destruct (downloadEach C E tempDir (ServiceYmls td) w2) as [[[]|e] w3]; [|reflexivity].
  destruct (downloadEach C E tempDir (DockerComposeYmls td) w3) as [[[]|e] w4];
    reflexivity.
Qed.

(** What a successful loop did: one fetch per file, answered in turn by
    the requests that follow the ones already made, and one write each. *)
Lemma downloadEach_ok_inv tempDir files : forall w w',
  downloadEach C E tempDir files w = (Ok tt, w') ->
  exists cs,
    List.length cs = List.length files /\
    (forall i f c, files !! i = Some f -> cs !! i = Some c ->
       http E (w_reqs w + i) (branchURL E (URL f)) = Ok c) /\
    w_log w' = w_log w ++ download_log E tempDir files cs /\
    w_fs w' = store_all E tempDir files cs (w_fs w) /\
    w_reqs w' = w_reqs w + List.length files /\
    w_pack w' = w_pack w /\ w_globals w' = w_globals w.
Proof.
  induction files as [|f files IH]; intros w w' H; simpl in H.
  - inversion H; subst. exists []. simpl.
    rewrite app_nil_r, Nat.add_0_r. repeat split; auto.
    intros i f c Hf. now rewrite lookup_nil in Hf.
  - apply bind_inv_ok in H. destruct H as ([] & w1 & H1 & H2).
    apply downloadSingleFile_ok_inv in H1. destruct H1 as (c & Hh & _ & _ & ->).
    apply IH in H2. destruct H2 as (cs & Hlen & Hreq & Hlog & Hfs & Hn & Hp & Hg).
    exists (c :: cs). simpl in *. repeat split; auto.
    + intros [|i] f' c' Hf Hc; simpl in *.
      * inversion Hf; inversion Hc; subst. now rewrite Nat.add_0_r.
      * rewrite <- Nat.add_succ_comm. eauto.
    + now rewrite Hlog, <- app_assoc.
    + rewrite Hn. lia.
Qed.

(** Every file of a successful loop was created and filled. *)
Lemma download_log_covers tempDir files : forall cs,
  List.length cs = List.length files ->
  forall f, In f files ->
    In (ECreate (cache_path E tempDir f) None) (download_log E tempDir files cs) /\
    exists c, In (ECopy (cache_path E tempDir f) c None) (download_log E tempDir files cs).
Proof.
  induction files as [|g files IH]; intros [|c cs] Hlen f Hin; simpl in *;
    try discriminate; try contradiction.
  destruct Hin as [->|Hin].
  - split; [auto 6|]. exists c. auto 6.
  - destruct (IH cs ltac:(lia) f Hin) as (H1 & c' & H2).
    split; [auto 6|]. exists c'. auto 6.
Qed.

(** A file written by the loop and not written again keeps its content. *)
Lemma store_all_other tempDir files : forall cs fs q,
  (forall f, In f files -> cache_path E tempDir f <> q) ->
  store_all E tempDir files cs fs !! q = fs !! q.
Proof.
  induction files as [|f files IH]; intros [|c cs] fs q Hq; simpl; auto.
  rewrite IH by (intros; apply Hq; simpl; auto).
  apply lookup_insert_ne. apply Hq. simpl; auto.
Qed.

Lemma store_all_is_Some tempDir files : forall cs fs q,
  is_Some (fs !! q) -> is_Some (store_all E tempDir files cs fs !! q).
Proof.
  induction files as [|f files IH]; intros [|c cs] fs q Hq; simpl; auto.
  apply IH. destruct (decide (cache_path E tempDir f = q)) as [->|Hne].
  - rewrite lookup_insert_eq. eauto.
  - now rewrite lookup_insert_ne.
Qed.

Lemma store_all_written tempDir files : forall cs fs f,
  List.length cs = List.length files -> In f files ->
  is_Some (store_all E tempDir files cs fs !! cache_path E tempDir f).
Proof.
  induction files as [|g files IH]; intros [|c cs] fs f Hlen Hin; simpl in *;
    try discriminate; try contradiction.
  destruct Hin as [->|Hin].
  - apply store_all_is_Some. rewrite lookup_insert_eq. eauto.
  - apply IH; auto.
Qed.

Lemma emits_downloadEach tempDir files :
  emits (fun e => is_io e = true) (downloadEach C E tempDir files).
Proof.
  induction files as [|f files IH]; simpl.
  - apply emits_ret.
  - apply emits_bind; [|intros; exact IH].
    eapply emits_weaken; [|apply emits_downloadSingleFile].
    intros [] Ha; simpl in *; try contradiction; reflexivity.
Qed.

End Cache.

(** ** Synchronisation *)

Section Sync.

Variable C : packs.Pack.
Variable E : Env.

Lemma fetchJSON_ok url b tv (w : World C) :
  http E (w_reqs w) url = Ok b -> json_Unmarshal E b = Ok tv ->
  fetchJSON C E url w = (Ok tv, emit (EFetch url (Ok b)) (next_req w)).
Proof.
  intros Hh Hj. unfold fetchJSON, bind, fetch. now rewrite Hh, Hj.
Qed.

Lemma fetchJSON_ok_inv url tv (w w1 : World C) :
  fetchJSON C E url w = (Ok tv, w1) ->
  exists b, http E (w_reqs w) url = Ok b /\ json_Unmarshal E b = Ok tv /\
            w1 = emit (EFetch url (Ok b)) (next_req w).
Proof.
  unfold fetchJSON, bind, fetch.
  destruct (http E (w_reqs w) url) as [b|e] eqn:Hh; [|discriminate].
  destruct (json_Unmarshal E b) as [tv'|e] eqn:Hj; intros H; inversion H; subst.
  eauto.
Qed.

Lemma read_of_ok p fs c :
  read_of E p fs = Ok c -> read_err E p = None /\ fs !! p = Some c.
Proof.
  unfold read_of. destruct (read_err E p); [discriminate|].
  destruct (fs !! p); intros H; inversion H; auto.
Qed.

Lemma stat_of_present p fs c :
  fs !! p = Some c -> IsNotExist (stat_of E p fs) = false.
Proof.
  intros H. unfold stat_of. rewrite H. now destruct (stat_err E p).
Qed.

Lemma download_if_absent_present tempDir tv c (w : World C) :
  w_fs w !! filepath_Join E tempDir "templates.json" = Some c ->
  download_if_absent C E tempDir tv w =
  (Ok tt, emit (EStat (filepath_Join E tempDir "templates.json")
                  (stat_of E (filepath_Join E tempDir "templates.json") (w_fs w))) w).
Proof.
  intros H. unfold download_if_absent, bind, os_Stat.
  now rewrite (stat_of_present _ _ _ H).
Qed.

(** With a local manifest in place, a sync is three reads followed by the
    comparison. *)
Lemma getTempaltes_present tempDir b tv c ltv (w : World C) :
  http E (w_reqs w) (branchURL E templatePath) = Ok b ->
  json_Unmarshal E b = Ok tv ->
  w_fs w !! filepath_Join E tempDir "templates.json" = Some c ->
  read_err E (filepath_Join E tempDir "templates.json") = None ->
  json_Unmarshal E c = Ok ltv ->
  getTempaltes C E tempDir w =
  (if negb (String.eqb (Version ltv) (Version tv))
   then downloadTemplates C E tempDir tv
   else ret tt) (compared E tempDir b c w).
Proof.
  intros Hh Hj Hc Hr Hl. unfold getTempaltes.
  rewrite (bind_ok _ _ _ _ _ _ (fetchJSON_ok _ _ _ _ Hh Hj)).
  erewrite bind_ok; [|apply download_if_absent_present with (c := c); exact Hc].
  unfold download_if_newer, bind, ioutil_ReadFile, read_of.
  cbn [w_fs emit next_req]. rewrite Hr, Hc, Hl.
  replace (emit _ (emit _ (emit _ (next_req w)))) with (compared E tempDir b c w);
    [reflexivity|].
  apply world_eq; try reflexivity.
  cbn [w_log emit next_req compared]. now rewrite <- !app_assoc.
Qed.

Lemma compared_since tempDir b c (w : World C) :
  events_since w (compared E tempDir b c w) =
  [ EFetch (branchURL E templatePath) (Ok b);
    EStat (filepath_Join E tempDir "templates.json")
      (stat_of E (filepath_Join E tempDir "templates.json") (w_fs w));
    EReadFile (filepath_Join E tempDir "templates.json") (Ok c) ].
Proof. now apply events_since_app. Qed.

(** The result of a successful full download. *)
Lemma downloadTemplates_ok_inv tempDir td (w w' : World C) :
  downloadTemplates C E tempDir td w = (Ok tt, w') ->
  exists cm cs,
    List.length cs = List.length (all_entries td) /\
    http E (w_reqs w) (branchURL E (URL (manifestFile E))) = Ok cm /\
    (forall i f c, all_entries td !! i = Some f -> cs !! i = Some c ->
       http E (w_reqs w + S i) (branchURL E (URL f)) = Ok c) /\
    w_log w' = w_log w ++
      download_log E tempDir (manifestFile E :: all_entries td) (cm :: cs) /\
    w_fs w' = store_all E tempDir (manifestFile E :: all_entries td) (cm :: cs) (w_fs w) /\
    w_reqs w' = w_reqs w + S (List.length (all_entries td)).
Proof.
  rewrite downloadTemplates_each. intros H.
  apply downloadEach_ok_inv in H.
  destruct H as (cs0 & Hlen & Hreq & Hlog & Hfs & Hn & _ & _).
  destruct cs0 as [|cm cs]; [discriminate|].
  exists cm, cs. simpl in Hlen. repeat split; auto.
  specialize (Hreq 0 (manifestFile E) cm eq_refl eq_refl).
  now rewrite Nat.add_0_r in Hreq.
Qed.

(** A successful sync under an unchanged remote version leaves a local
    manifest of that version. *)
Lemma getTempaltes_leaves_version tempDir v (w0 w : World C) :
  getTempaltes C E tempDir w0 = (Ok tt, w) ->
  remote_unchanged E tempDir (w_reqs w0) v ->
  exists c ltv,
    w_fs w !! filepath_Join E tempDir "templates.json" = Some c /\
    read_err E (filepath_Join E tempDir "templates.json") = None /\
    json_Unmarshal E c = Ok ltv /\ Version ltv = v.
Proof.
  intros Hrun Hrem. unfold getTempaltes in Hrun.
  apply bind_inv_ok in Hrun. destruct Hrun as (tv & w1 & Hf & Hrun).
  apply fetchJSON_ok_inv in Hf. destruct Hf as (b & Hh & Hj & ->).
  destruct (Hrem _ _ _ (le_n _) (or_introl eq_refl) Hh) as (tv' & Hj' & Hv & Hapart).
  rewrite Hj in Hj'. inversion Hj'; subst tv'. clear Hj'.
  apply bind_inv_ok in Hrun. destruct Hrun as ([] & w2 & Habs & Hnew).
  assert (Hle : w_reqs w0 <= w_reqs w2).
  { unfold download_if_absent in Habs.
    apply bind_inv_ok in Habs. destruct Habs as (st & wa & Hst & Habs).
    unfold os_Stat in Hst. inversion Hst; subst st wa. clear Hst.
    destruct (IsNotExist _).
    - apply bind_inv_ok in Habs. destruct Habs as ([] & wb & Hmk & Hdl).
      unfold os_MkdirAll in Hmk. inversion Hmk as [[Hr Hwb]]. subst wb.
      apply downloadTemplates_ok_inv in Hdl.
      destruct Hdl as (cm & cs & _ & _ & _ & _ & _ & Hn). rewrite Hn. simpl. lia.
    - inversion Habs; subst. simpl. lia. }
  unfold download_if_newer in Hnew.
  apply bind_inv_ok in Hnew. destruct Hnew as (c & w3 & Hrd & Hnew).
  unfold ioutil_ReadFile in Hrd. inversion Hrd as [[Hr Hw3]]. clear Hrd.
  apply read_of_ok in Hr. destruct Hr as [Hre Hc].
  apply bind_inv_ok in Hnew. destruct Hnew as (ltv & w4 & Hl & Hnew).
  inversion Hl as [[Hl' Hw4]]. subst w4. clear Hl.
  destruct (String.eqb (Version ltv) (Version tv)) eqn:Heq; simpl in Hnew.
  - inversion Hnew; subst w. exists c, ltv. subst w3. simpl.
    apply String.eqb_eq in Heq. repeat split; auto. congruence.
  - apply downloadTemplates_ok_inv in Hnew.
    destruct Hnew as (cm & cs & Hlen & Hcm & _ & _ & Hfs & _).
    assert (Hk : w_reqs w0 <= w_reqs w3) by (subst w3; simpl; lia).
    destruct (Hrem _ _ _ Hk (or_intror eq_refl) Hcm) as (tvm & Hjm & Hvm & _).
    exists cm, tvm. repeat split; auto.
    rewrite Hfs. simpl. rewrite store_all_other by exact Hapart.
    apply lookup_insert_eq.
Qed.

End Sync.

(** ** Properties of the template cache *)

Section CacheClaims.

Variable C : packs.Pack.
Variable E : Env.

(** C2: a sync is idempotent when the versions match.  When the local
    templates.json decodes to a manifest whose version equals the version
    of the remote manifest, [getTempaltes] succeeds, leaves the file system
    as it is, and its whole I/O is one fetch of the remote manifest, the
    stat of the local manifest and its read: no entry is downloaded and no
    file is created or filled.  In particular this is the case of the sync
    that follows a successful one while the remote version is unchanged. *)
Theorem sync_idempotent_when_versions_match tempDir b tv (w : World C) :
  http E (w_reqs w) (branchURL E templatePath) = Ok b ->
  json_Unmarshal E b = Ok tv ->
  (exists c ltv,
      w_fs w !! filepath_Join E tempDir "templates.json" = Some c /\
      read_err E (filepath_Join E tempDir "templates.json") = None /\
      json_Unmarshal E c = Ok ltv /\ Version ltv = Version tv)
  \/ (exists w0,
      getTempaltes C E tempDir w0 = (Ok tt, w) /\
      remote_unchanged E tempDir (w_reqs w0) (Version tv)) ->
  exists c w',
    getTempaltes C E tempDir w = (Ok tt, w') /\
    w_fs w' = w_fs w /\
    events_since w w' =
      [ EFetch (branchURL E templatePath) (Ok b);
        EStat (filepath_Join E tempDir "templates.json")
          (stat_of E (filepath_Join E tempDir "templates.json") (w_fs w));
        EReadFile (filepath_Join E tempDir "templates.json") (Ok c) ].
Proof.
  intros Hh Hj Hlocal.
  assert (exists c ltv,
      w_fs w !! filepath_Join E tempDir "templates.json" = Some c /\
      read_err E (filepath_Join E tempDir "templates.json") = None /\
      json_Unmarshal E c = Ok ltv /\ Version ltv = Version tv) as (c & ltv & Hc & Hr & Hl & Hv).
  { destruct Hlocal as [Hlocal | (w0 & Hrun & Hrem)]; [exact Hlocal|].
    eapply getTempaltes_leaves_version; eauto. }
  exists c, (compared E tempDir b c w).
  rewrite (getTempaltes_present C E tempDir b tv c ltv w Hh Hj Hc Hr Hl).
  rewrite Hv, String.eqb_refl. simpl.
  repeat split. apply compared_since.
Qed.

(** C4: version-driven invalidation.  When the local templates.json
    decodes to a manifest whose version differs from the version of the
    remote manifest, the sync is, after its three reads, a full download
    of the remote manifest; when it succeeds, the manifest file and every
    entry of the three lists of the remote manifest were created and
    filled during the sync, and are on disk. *)
Theorem sync_downloads_when_versions_differ tempDir b tv c ltv (w : World C) :
  http E (w_reqs w) (branchURL E templatePath) = Ok b ->
  json_Unmarshal E b = Ok tv ->
  w_fs w !! filepath_Join E tempDir "templates.json" = Some c ->
  read_err E (filepath_Join E tempDir "templates.json") = None ->
  json_Unmarshal E c = Ok ltv ->
  Version ltv <> Version tv ->
  getTempaltes C E tempDir w =
    downloadTemplates C E tempDir tv (compared E tempDir b c w) /\
  forall w', getTempaltes C E tempDir w = (Ok tt, w') ->
    forall f, In f (manifestFile E :: Dockerfiles tv ++ ServiceYmls tv ++ DockerComposeYmls tv) ->
      In (ECreate (cache_path E tempDir f) None) (events_since w w') /\
      (exists c', In (ECopy (cache_path E tempDir f) c' None) (events_since w w')) /\
      is_Some (w_fs w' !! cache_path E tempDir f).
Proof.
  intros Hh Hj Hc Hr Hl Hv.
  assert (Hrun : getTempaltes C E tempDir w =
                 downloadTemplates C E tempDir tv (compared E tempDir b c w)).
  { rewrite (getTempaltes_present C E tempDir b tv c ltv w Hh Hj Hc Hr Hl).
    apply String.eqb_neq in Hv. now rewrite Hv. }
  split; [exact Hrun|].
  intros w' Hok f Hin. rewrite Hrun in Hok.
  apply downloadTemplates_ok_inv in Hok.
  destruct Hok as (cm & cs & Hlen & _ & _ & Hlog & Hfs & _).
  assert (Hlen' : List.length (cm :: cs) = List.length (manifestFile E :: all_entries tv))
    by (simpl; now rewrite Hlen).
  assert (Hsince : events_since w w' =
            events_since w (compared E tempDir b c w) ++
            download_log E tempDir (manifestFile E :: all_entries tv) (cm :: cs)).
  { rewrite compared_since. apply events_since_app.
    rewrite Hlog. cbn [w_log compared]. now rewrite <- app_assoc. }
  destruct (download_log_covers E tempDir _ _ Hlen' f Hin) as (H1 & c' & H2).
  rewrite Hsince. repeat split.
  - apply in_or_app. now right.
  - exists c'. apply in_or_app. now right.
  - rewrite Hfs. now apply store_all_written.
Qed.

(** C5 (as the code has it): a successful full download starts with a
    request of its own for the manifest, made after the request whose
    answer was decoded and compared, and writes the body of that answer
    into templates.json; then every entry of the three lists is fetched
    from its URL, the branch filled in, and written to the cache under its
    name, in order, a later write replacing what the path held.  The two
    manifests are the same when the remote side answers both requests
    alike. *)
Theorem full_download_writes_refetched_manifest tempDir td (w w' : World C) :
  downloadTemplates C E tempDir td w = (Ok tt, w') ->
  exists cm cs,
    List.length cs = List.length (all_entries td) /\
    http E (w_reqs w) (branchURL E (URL (manifestFile E))) = Ok cm /\
    (forall i f c, all_entries td !! i = Some f -> cs !! i = Some c ->
       http E (w_reqs w + S i) (branchURL E (URL f)) = Ok c) /\
    events_since w w' =
      download_log E tempDir (manifestFile E :: all_entries td) (cm :: cs) /\
    w_fs w' = store_all E tempDir (manifestFile E :: all_entries td) (cm :: cs) (w_fs w) /\
    (forall b, http E (w_reqs w) (branchURL E (URL (manifestFile E))) = Ok b ->
       In (ECopy (filepath_Join E tempDir "templates.json") b None) (events_since w w')).
Proof.
  intros H. apply downloadTemplates_ok_inv in H.
  destruct H as (cm & cs & Hlen & Hcm & Hreq & Hlog & Hfs & _).
  exists cm, cs. rewrite (events_since_app C w w' _ Hlog).
  repeat split; auto.
  intros b Hb. rewrite Hcm in Hb. inversion Hb; subst b.
  simpl. unfold cache_path. simpl. auto.
Qed.

(** C6: a failing entry aborts the sync.  When the manifest file and the
    entries before [f] were downloaded and the download of [f] fails, the
    full download returns that error in the state the failed attempt left:
    the events after the earlier entries all belong to [f], no later entry
    is touched, every earlier entry is on disk, with its content when it
    is not the file of [f] itself.  The sync that runs the download, on
    first use or after the comparison, returns the same error in the same
    state. *)
Theorem failed_entry_aborts_download tempDir td l1 f l2 (w wk wk' : World C) err :
  all_entries td = l1 ++ f :: l2 ->
  downloadEach C E tempDir (manifestFile E :: l1) w = (Ok tt, wk) ->
  downloadSingleFile C E tempDir f wk = (Err err, wk') ->
  downloadTemplates C E tempDir td w = (Err err, wk') /\
  Forall (about E tempDir f) (events_since wk wk') /\
  (forall g, In g l1 ->
     is_Some (w_fs wk' !! cache_path E tempDir g) /\
     (cache_path E tempDir g <> cache_path E tempDir f ->
      w_fs wk' !! cache_path E tempDir g = w_fs wk !! cache_path E tempDir g)) /\
  (forall w0 w1,
     fetchJSON C E (branchURL E templatePath) w0 = (Ok td, w1) ->
     (forall w2,
        os_Stat C E (filepath_Join E tempDir "templates.json") w1 = (Ok StatNotExist, w2) ->
        os_MkdirAll C E tempDir w2 = (Ok tt, w) ->
        getTempaltes C E tempDir w0 = (Err err, wk')) /\
     (forall w2 c ltv,
        download_if_absent C E tempDir td w1 = (Ok tt, w2) ->
        ioutil_ReadFile C E (filepath_Join E tempDir "templates.json") w2 = (Ok c, w) ->
        json_Unmarshal E c = Ok ltv ->
        Version ltv <> Version td ->
        getTempaltes C E tempDir w0 = (Err err, wk'))).
Proof.
  intros Hsplit Hpre Hfail.
  assert (Hdl : downloadTemplates C E tempDir td w = (Err err, wk')).
  { rewrite downloadTemplates_each, Hsplit.
    change (manifestFile E :: l1 ++ f :: l2) with ((manifestFile E :: l1) ++ f :: l2).
    rewrite downloadEach_app. rewrite (bind_ok _ _ _ _ _ _ Hpre).
    simpl. now rewrite (bind_err _ _ _ _ _ _ Hfail). }
  split; [exact Hdl|]. split; [|split].
  - destruct (emits_downloadSingleFile C E tempDir f _ _ _ Hfail) as (evs & Hl & Hf).
    now rewrite (events_since_app C _ _ _ Hl).
  - intros g Hg.
    destruct (downloadSingleFile_err C E _ _ _ _ _ Hfail) as [Hother Hkeep].
    split; [|intros Hne; now apply Hother].
    apply Hkeep.
    apply downloadEach_ok_inv in Hpre.
    destruct Hpre as (cs & Hlen & _ & _ & Hfs & _).
    rewrite Hfs. apply store_all_written; [exact Hlen|]. simpl; auto.
  - intros w0 w1 Hf. split.
    + intros w2 Hst Hmk. unfold getTempaltes.
      rewrite (bind_ok _ _ _ _ _ _ Hf).
      apply bind_err. unfold download_if_absent.
      rewrite (bind_ok _ _ _ _ _ _ Hst). simpl.
      rewrite (bind_ok _ _ _ _ _ _ Hmk). exact Hdl.
    + intros w2 c ltv Habs Hrd Hl Hv. unfold getTempaltes.
      rewrite (bind_ok _ _ _ _ _ _ Hf).
      rewrite (bind_ok _ _ _ _ _ _ Habs).
      unfold download_if_newer. rewrite (bind_ok _ _ _ _ _ _ Hrd).
      unfold bind at 1. rewrite Hl.
      apply String.eqb_neq in Hv. rewrite Hv. exact Hdl.
Qed.

End CacheClaims.

(** ** The generation pipeline *)

Section Pipeline.

Variable C : packs.Pack.
Variable E : Env.

Lemma emits_fetchJSON P url :
  (forall r, P (EFetch url r)) -> emits P (fetchJSON C E url).
Proof.
  intros HP. unfold fetchJSON. apply emits_bind.
  - intros w r w' H. unfold fetch in H. inversion H; subst.
    eexists [_]. split; [reflexivity|]. repeat constructor. apply HP.
  - intros body. apply emits_pure.
Qed.

Lemma emits_os_Stat P p :
  (forall r, P (EStat p r)) -> emits P (os_Stat C E p).
Proof.
  intros HP w r w' H. unfold os_Stat in H. inversion H; subst.
  eexists [_]. split; [reflexivity|]. repeat constructor. apply HP.
Qed.

Lemma emits_downloadTemplates tempDir td :
  emits (fun e => is_io e = true) (downloadTemplates C E tempDir td).
Proof.
  intros w r w' H. rewrite downloadTemplates_each in H.
  eapply emits_downloadEach; eauto.
Qed.

Lemma emits_getTempaltes tempDir :
  emits (fun e => is_io e = true) (getTempaltes C E tempDir).
Proof.
  unfold getTempaltes. apply emits_bind; [now apply emits_fetchJSON|].
  intros tv. apply emits_bind.
  - unfold download_if_absent. apply emits_bind; [now apply emits_os_Stat|].
    intros st. apply emits_if; [|apply emits_ret].
    apply emits_bind; [|intros; apply emits_downloadTemplates].
    intros w r w' H. unfold os_MkdirAll in H. inversion H; subst.
    eexists [_]. split; [reflexivity|]. repeat constructor.
  - intros _. unfold download_if_newer. apply emits_bind.
    + intros w r w' H. unfold ioutil_ReadFile in H. inversion H; subst.
      eexists [_]. split; [reflexivity|]. repeat constructor.
    + intros c. apply emits_bind; [apply emits_pure|].
      intros ltv. apply emits_if; [apply emits_downloadTemplates|apply emits_ret].
Qed.

(** Up to detection, the pack is asked for nothing but detection. *)
Lemma emits_analyze_detect updateTemplates path templates :
  emits (fun e => is_generation e = false)
        (analyze_detect C E updateTemplates path templates).
Proof.
  unfold analyze_detect. apply emits_bind.
  - unfold resolve_path. apply emits_if; [|apply emits_ret].
    apply emits_wrap. intros w r w' H. unfold os_Getwd_call in H.
    inversion H; subst. eexists [_]. split; [reflexivity|]. repeat constructor.
  - intros path'. apply emits_bind.
    + unfold resolve_templates. apply emits_if.
      * apply emits_bind.
        -- apply emits_if; [|apply emits_ret]. apply emits_wrap.
           eapply emits_weaken; [|apply emits_getTempaltes].
           intros []; simpl; congruence.
        -- intros _ w r w' H. unfold set_template_dirs in H. inversion H; subst.
           exists []. simpl. now rewrite app_nil_r.
      * destruct (filepath_Abs E templates); [|apply emits_fail].
        intros w r w' H. unfold set_template_dirs in H. inversion H; subst.
        exists []. simpl. now rewrite app_nil_r.
    + intros _. apply emits_bind; [|intros; apply emits_ret].
      apply emits_wrap. intros w r w' H. unfold Detect in H.
      destruct (packs.Detect C path' (w_fs w)) as [[p|e] fs']; inversion H; subst;
        eexists [_]; (split; [reflexivity|]); repeat constructor.
Qed.

Lemma collect_warnings_id msgs : collect_warnings msgs = msgs.
Proof.
  unfold collect_warnings.
  assert (H : forall acc, fold_left (fun ws (x : string) => ws ++ [x]) msgs acc = acc ++ msgs).
  { induction msgs as [|m msgs IH]; intros acc; simpl.
    - now rewrite app_nil_r.
    - rewrite IH. now rewrite <- app_assoc. }
  destruct msgs as [|m msgs]; [reflexivity|].
  change (Nat.ltb 0 (List.length (m :: msgs))) with true. cbv iota.
  apply (H []).
Qed.

(** How a run of [analyze] splits at detection. *)
Lemma analyze_inv updateTemplates path templates environment noPrompt overwrite generator
    (w : World C) r w' :
  analyze C E updateTemplates path templates environment noPrompt overwrite generator w
    = (r, w') ->
  (exists e, r = Err e /\
     analyze_detect C E updateTemplates path templates w = (Err e, w'))
  \/ (exists path' p w1,
     analyze_detect C E updateTemplates path templates w = (Ok (path', p), w1) /\
     analyze_generate C E path' environment noPrompt overwrite generator p w1 = (r, w')).
Proof.
  unfold analyze, bind.
  destruct (analyze_detect C E updateTemplates path templates w) as [[[path' p]|e] w1];
    intros H.
  - right. exists path', p, w1. auto.
  - left. inversion H; subst. eauto.
Qed.

End Pipeline.

(** Runs a computation of the pipeline symbolically: every call whose
    outcome decides the control flow is split into its cases. *)
Ltac pipeline_unfold :=
  unfold analyze_generate, check_overwrite, bind, wrap, os_Stat, pack_Analyze,
    pack_WriteDockerfile, pack_WriteServiceYAML, pack_WriteDockerComposeYAML,
    call, get_globals, ret, fail in *.

Ltac pipeline_run_by norm H :=
  repeat (norm;
          do 2 cbn [w_fs w_log w_pack w_globals w_reqs
                    emit set_fs set_pack set_globals next_req] in H |- *;
          match type of H with
          | context [match ?x with _ => _ end] =>
              lazymatch x with
              | context [match _ with _ => _ end] => fail
              | _ => destruct x eqn:?
              end
          end);
  inversion H; subst; clear H.

Ltac pipeline_run H := pipeline_run_by idtac H.

(** Runs the goal along the outcomes already recorded as equations. *)
Ltac pipeline_replay_by norm :=
  repeat (norm;
          do 2 cbn [w_fs w_log w_pack w_globals w_reqs
                    emit set_fs set_pack set_globals next_req];
          match goal with
          | Hx : ?x = _ |- context [match ?x with _ => _ end] => rewrite Hx
          end).

Ltac log_norm :=
  cbn [w_log w_fs w_pack w_globals w_reqs emit set_fs set_pack set_globals next_req];
  rewrite <- ?app_assoc; cbn [app].

(** ** Properties of the pipeline *)

Section PipelineClaims.

Variable C : packs.Pack.
Variable E : Env.

Lemma check_overwrite_pass path file (w : World C) :
  check_overwrite C E path file true w =
  (Ok tt, emit (EStat (filepath_Join E path file)
                  (stat_of E (filepath_Join E path file) (w_fs w))) w).
Proof.
  unfold check_overwrite, bind, os_Stat, ret.
  now destruct (stat_nil _).
Qed.

Lemma check_overwrite_absent path file overwrite (w : World C) :
  stat_of E (filepath_Join E path file) (w_fs w) <> StatNil ->
  check_overwrite C E path file overwrite w =
  (Ok tt, emit (EStat (filepath_Join E path file)
                  (stat_of E (filepath_Join E path file) (w_fs w))) w).
Proof.
  intros H. unfold check_overwrite, bind, os_Stat, ret.
  destruct (stat_of E (filepath_Join E path file) (w_fs w)); simpl; congruence.
Qed.

Lemma check_overwrite_refuse path file (w : World C) :
  stat_of E (filepath_Join E path file) (w_fs w) = StatNil ->
  check_overwrite C E path file false w =
  (Err (already_exists file), emit (EStat (filepath_Join E path file) StatNil) w).
Proof.
  intros H. unfold check_overwrite, bind, os_Stat, fail. now rewrite H.
Qed.

(** With [overwrite] set, the run reaches the analysis. *)
Lemma analyze_generate_overwrite path environment noPrompt generator p (w1 : World C) r w' :
  analyze_generate C E path environment noPrompt true generator p w1 = (r, w') ->
  exists o evs,
    w_log w' = w_log w1 ++ evs /\
    In (EAnalyze path environment (negb noPrompt) o) evs.
Proof.
  intros H. unfold analyze_generate in H.
  unfold bind at 1 in H. rewrite check_overwrite_pass in H.
  unfold bind at 1 in H. rewrite check_overwrite_pass in H.
  pipeline_unfold. pipeline_run H;
    eexists; eexists; (split; [log_norm; reflexivity|]); simpl; auto 8.
Qed.

(** C1: the overwrite guard.  When the run has detected the project and
    [os.Stat] finds Dockerfile or service.yml in the project path, a run
    without [overwrite] fails with the error that names the file found
    (Dockerfile first); the pack was asked neither to analyse nor to write
    anything in the whole run, and the file system and the pack are as
    detection left them.  With [overwrite] the same run goes past the
    guard and asks the pack to analyse. *)
Theorem overwrite_guard updateTemplates path templates environment noPrompt generator
    (w w1 : World C) path' p :
  analyze_detect C E updateTemplates path templates w = (Ok (path', p), w1) ->
  present E (filepath_Join E path' "Dockerfile") w1 \/
  present E (filepath_Join E path' "service.yml") w1 ->
  (exists file w2,
     analyze C E updateTemplates path templates environment noPrompt false generator w
       = (Err (already_exists file), w2) /\
     (file = "Dockerfile" \/ file = "service.yml") /\
     present E (filepath_Join E path' file) w1 /\
     w_fs w2 = w_fs w1 /\ w_pack w2 = w_pack w1 /\
     Forall (fun e => is_generation e = false) (events_since w w2)) /\
  (exists r w3 o,
     analyze C E updateTemplates path templates environment noPrompt true generator w
       = (r, w3) /\
     In (EAnalyze path' environment (negb noPrompt) o) (events_since w w3)).
Proof.
  intros Hdet Hfile.
  destruct (emits_analyze_detect C E _ _ _ _ _ _ Hdet) as (evs & Hlog & Hevs).
  split.
  - unfold analyze. rewrite (bind_ok _ _ _ _ _ _ Hdet). simpl fst; simpl snd.
    unfold analyze_generate, present in *.
    destruct (stat_of E (filepath_Join E path' "Dockerfile") (w_fs w1)) eqn:Hd.
    + exists "Dockerfile"%string. eexists.
      rewrite (bind_err _ _ _ _ _ _ (check_overwrite_refuse _ _ _ Hd)).
      repeat split; auto.
      erewrite events_since_app; [|log_norm; rewrite Hlog, <- app_assoc; reflexivity].
      apply Forall_app. split; [exact Hevs|]. repeat constructor.
    + destruct Hfile as [Hfile|Hfile]; [discriminate|].
      exists "service.yml"%string. eexists.
      erewrite bind_ok; [|apply check_overwrite_absent; congruence].
      erewrite bind_err; [|apply check_overwrite_refuse; exact Hfile].
      repeat split; auto.
      erewrite events_since_app; [|log_norm; rewrite Hlog, <- app_assoc; reflexivity].
      apply Forall_app. split; [exact Hevs|]. repeat constructor.
    + destruct Hfile as [Hfile|Hfile]; [discriminate|].
      exists "service.yml"%string. eexists.
      erewrite bind_ok; [|apply check_overwrite_absent; congruence].
      erewrite bind_err; [|apply check_overwrite_refuse; exact Hfile].
      repeat split; auto.
      erewrite events_since_app; [|log_norm; rewrite Hlog, <- app_assoc; reflexivity].
      apply Forall_app. split; [exact Hevs|]. repeat constructor.
  - destruct (analyze C E updateTemplates path templates environment noPrompt true
                generator w) as [r w3] eqn:Hrun.
    unfold analyze in Hrun. rewrite (bind_ok _ _ _ _ _ _ Hdet) in Hrun.
    simpl fst in Hrun; simpl snd in Hrun.
    destruct (analyze_generate_overwrite _ _ _ _ _ _ _ _ Hrun) as (o & evs2 & Hlog2 & Hin).
    exists r, w3, o. split; [reflexivity|].
    erewrite events_since_app; [|rewrite Hlog2, Hlog, <- app_assoc; reflexivity].
    apply in_or_app. now right.
Qed.







(** The result of a successful run of the second half. *)
Lemma analyze_generate_result path environment noPrompt overwrite generator p
    (w1 : World C) res w' :
  analyze_generate C E path environment noPrompt overwrite generator p w1 = (Ok res, w') ->
  exists pf,
    w_pack w' = Some pf /\
    res = {| Warnings := packs.GetMessages C pf;
             OK := true;
             Language := packs.Name C pf;
             Framework := packs.Framework C pf;
             FrameworkVersion := packs.FrameworkVersion C pf |}.
Proof.
  intros H. pipeline_unfold. pipeline_run H;
    eexists; (split; [reflexivity|]); now rewrite collect_warnings_id.
Qed.

(** A successful run of the second half succeeds in the same state when
    the collaborator reports other messages. *)
Lemma analyze_generate_messages g path environment noPrompt overwrite generator p
    (w1 : World C) res w' :
  analyze_generate C E path environment noPrompt overwrite generator p w1 = (Ok res, w') ->
  exists res',
    analyze_generate (with_messages C g) E path environment noPrompt overwrite generator
      p w1 = (Ok res', w') /\
    OK res' = true.
Proof.
  intros H. pipeline_unfold.
  cbn [with_messages packs.carrier packs.Analyze packs.WriteDockerfile
       packs.WriteServiceYAML packs.WriteDockerComposeYAML].
  pipeline_run_by
    ltac:(change (packs.carrier (with_messages C g)) with (packs.carrier C)) H;
    pipeline_replay_by
      ltac:(change (packs.carrier (with_messages C g)) with (packs.carrier C));
    eexists; split; reflexivity.
Qed.

(** *** Errors *)

Lemma fails_only_ret {A} P (a : A) : fails_only P (ret (C:=C) a).
Proof. intros w e w' H. discriminate. Qed.

Lemma fails_only_fail {A} (P : string -> Prop) e :
  P e -> fails_only P (fail (C:=C) (A:=A) e).
Proof. intros HP w e' w' H. inversion H; subst. exact HP. Qed.

Lemma fails_only_bind {A B} P (m : M C A) (k : A -> M C B) :
  fails_only P m -> (forall a, fails_only P (k a)) -> fails_only P (bind m k).
Proof.
  intros Hm Hk w e w' H. apply bind_inv_err in H.
  destruct H as [H|(a & w1 & _ & H)].
  - exact (Hm _ _ _ H).
  - exact (Hk _ _ _ _ H).
Qed.

Lemma fails_only_wrap {A} (P : string -> Prop) prefix (m : M C A) :
  (forall e, P (prefix ++ e)%string) -> fails_only P (wrap prefix m).
Proof.
  intros HP w e w' H. apply wrap_inv_err in H. destruct H as (e0 & _ & ->). apply HP.
Qed.

Lemma fails_only_if {A} P (b : bool) (m1 m2 : M C A) :
  fails_only P m1 -> fails_only P m2 -> fails_only P (if b then m1 else m2).
Proof. now destruct b. Qed.

Ltac other_message := let H := fresh in intros H; cbv in H; discriminate H.

(** No step before the guard reports the compose file as existing. *)
Lemma analyze_detect_errors updateTemplates path templates :
  fails_only (fun e => e <> already_exists "docker-compose.yml")
             (analyze_detect C E updateTemplates path templates).
Proof.
  unfold analyze_detect. apply fails_only_bind.
  - unfold resolve_path. apply fails_only_if; [|apply fails_only_ret].
    apply fails_only_wrap. intros e. other_message.
  - intros path'. apply fails_only_bind.
    + unfold resolve_templates. apply fails_only_if.
      * apply fails_only_bind.
        -- apply fails_only_if; [|apply fails_only_ret].
           apply fails_only_wrap. intros e. other_message.
        -- intros _ w e w' H. discriminate.
      * destruct (filepath_Abs E templates) as [t|e].
        -- intros w e w' H. discriminate.
        -- apply fails_only_fail. other_message.
    + intros _. apply fails_only_bind; [|intros; apply fails_only_ret].
      apply fails_only_wrap. intros e. other_message.
Qed.

(** Nor does any step from the guard on. *)
Lemma analyze_generate_errors path environment noPrompt overwrite generator p :
  fails_only (fun e => e <> already_exists "docker-compose.yml")
             (analyze_generate C E path environment noPrompt overwrite generator p).
Proof.
  intros w e w' H. pipeline_unfold. pipeline_run H; other_message.
Qed.

(** When neither guarded file is there, the guard is passed with and
    without [overwrite] alike, and a run asked for the compose file calls
    its writer unless the analysis or an earlier writer fails. *)
Lemma analyze_generate_compose path environment noPrompt generator p (w1 : World C) r w' :
  ~ present E (filepath_Join E path "Dockerfile") w1 ->
  ~ present E (filepath_Join E path "service.yml") w1 ->
  Contains generator "docker-compose" = true ->
  analyze_generate C E path environment noPrompt false generator p w1 = (r, w') ->
  analyze_generate C E path environment noPrompt true generator p w1 = (r, w') /\
  exists evs,
    w_log w' = w_log w1 ++ evs /\
    ((exists td o, In (EWriteDockerComposeYAML td path (negb noPrompt) o) evs) \/
     (exists msg,
        r = Err ("Failed to analyze the project due to: " ++ msg)%string \/
        r = Err ("Failed to write Dockerfile due to: " ++ msg)%string \/
        r = Err ("Failed to write service.yml due to: " ++ msg)%string)).
Proof.
  intros Hd Hs Hc H.
  assert (Hsame : analyze_generate C E path environment noPrompt true generator p w1 =
                  analyze_generate C E path environment noPrompt false generator p w1).
  { unfold analyze_generate.
    rewrite (bind_ok _ _ _ _ _ _ (check_overwrite_pass path "Dockerfile" w1)).
    rewrite (bind_ok _ _ _ _ _ _ (check_overwrite_absent path "Dockerfile" false w1 Hd)).
    rewrite (bind_ok _ _ _ _ _ _ (check_overwrite_pass path "service.yml" _)).
    rewrite (bind_ok _ _ _ _ _ _
               (check_overwrite_absent path "service.yml" false (emit _ w1) Hs)).
    reflexivity. }
  split; [now rewrite Hsame|].
  unfold analyze_generate in H.
  erewrite bind_ok in H; [|apply check_overwrite_absent; exact Hd].
  erewrite bind_ok in H; [|apply check_overwrite_absent; exact Hs].
  rewrite Hc in H.
  pipeline_unfold. pipeline_run H;
    (eexists; split; [log_norm; reflexivity|]);
    first [ left; do 2 eexists; simpl; now eauto 10
          | right; eexists; now eauto ].
Qed.


(** *** The claims *)


(** C7: the result of a successful run.  When [analyze] succeeds, its
    result has [OK] set, the language, framework and framework version of
    the pack as the run left it, and as warnings the messages of that
    pack, in the pack's order.  The messages have no part in the success:
    the same run with a collaborator that reports any other messages
    succeeds too, in the same final state. *)
Theorem result_reports_pack updateTemplates path templates environment
    noPrompt overwrite generator (w : World C) res w' :
  analyze C E updateTemplates path templates environment noPrompt overwrite generator w
    = (Ok res, w') ->
  (exists pf,
     w_pack w' = Some pf /\
     OK res = true /\
     Language res = packs.Name C pf /\
     Framework res = packs.Framework C pf /\
     FrameworkVersion res = packs.FrameworkVersion C pf /\
     Warnings res = packs.GetMessages C pf) /\
  (forall g, exists res',
     analyze (with_messages C g) E updateTemplates path templates environment
       noPrompt overwrite generator w = (Ok res', w') /\
     OK res' = true).
Proof.
  intros H. apply analyze_inv in H.
  destruct H as [(e & He & _)|(path' & p & w1 & Hdet & Hgen)]; [discriminate|].
  split.
  - apply analyze_generate_result in Hgen. destruct Hgen as (pf & Hp & ->).
    exists pf. repeat split; auto.
  - intros g.
    destruct (analyze_generate_messages g _ _ _ _ _ _ _ _ _ Hgen) as (res' & Hrun & Hok).
    exists res'. split; [|exact Hok].
    unfold analyze.
    change (analyze_detect (with_messages C g) E updateTemplates path templates)
      with (analyze_detect C E updateTemplates path templates).
    unfold bind. rewrite Hdet. exact Hrun.
Qed.

(** C10: the compose file is not guarded.  No run of [analyze] fails with
    the "already exists" error for docker-compose.yml, whether the file
    is there or not.  When detection succeeded and neither Dockerfile nor
    service.yml is there, a run without [overwrite] whose generator
    string contains "docker-compose" behaves as the run with [overwrite]
    and calls the compose file writer, unless the analysis, the
    Dockerfile writer or the service descriptor writer fails before. *)
Theorem compose_file_not_guarded updateTemplates path templates environment
    noPrompt generator (w : World C) r w' :
  analyze C E updateTemplates path templates environment noPrompt false generator w
    = (r, w') ->
  (forall e, r = Err e -> e <> already_exists "docker-compose.yml") /\
  (forall path' p w1,
     analyze_detect C E updateTemplates path templates w = (Ok (path', p), w1) ->
     ~ present E (filepath_Join E path' "Dockerfile") w1 ->
     ~ present E (filepath_Join E path' "service.yml") w1 ->
     Contains generator "docker-compose" = true ->
     analyze C E updateTemplates path templates environment noPrompt true generator w
       = (r, w') /\
     ((exists td o,
         In (EWriteDockerComposeYAML td path' (negb noPrompt) o) (events_since w w')) \/
      (exists msg,
         r = Err ("Failed to analyze the project due to: " ++ msg)%string \/
         r = Err ("Failed to write Dockerfile due to: " ++ msg)%string \/
         r = Err ("Failed to write service.yml due to: " ++ msg)%string))).
Proof.
  intros H. split.
  - intros e ->. apply analyze_inv in H.
    destruct H as [(e0 & He & Hdet)|(path' & p & w1 & Hdet & Hgen)].
    + inversion He; subst. exact (analyze_detect_errors _ _ _ _ _ _ Hdet).
    + exact (analyze_generate_errors _ _ _ _ _ _ _ _ _ Hgen).
  - intros path' p w1 Hdet Hd Hs Hc.
    unfold analyze in H. rewrite (bind_ok _ _ _ _ _ _ Hdet) in H.
    unfold analyze. rewrite (bind_ok _ _ _ _ _ _ Hdet).
    simpl fst in *; simpl snd in *.
    destruct (analyze_generate_compose _ _ _ _ _ _ _ _ Hd Hs Hc H)
      as (Htrue & evs2 & Hlog2 & Hcall).
    split; [exact Htrue|].
    destruct (emits_analyze_detect C E _ _ _ _ _ _ Hdet) as (evs & Hlog & _).
    assert (Hsince : events_since w w' = evs ++ evs2).
    { apply events_since_app. now rewrite Hlog2, Hlog, app_assoc. }
    rewrite Hsince. destruct Hcall as [(td & o & Hin)|Herr]; [left|right; exact Herr].
    exists td, o. apply in_or_app. now right.
Qed.

End PipelineClaims.

(** ** The string functions on the inputs of the program *)

Example Contains_selects :
  Contains "dockerfile" "service" = false /\
  Contains "dockerfile,service" "service" = true /\
  Contains "dockerfile,service" "docker-compose" = false /\
  Contains "nonservice" "service" = true /\
  Contains "" "" = true.
Proof. repeat split; reflexivity. Qed.

Example Replace_branch :
  Replace templatePath "{{.branch}}" "master" = Demo.manifestURL /\
  Replace "{{.branch}}/{{.branch}}" "{{.branch}}" "dev" = "dev/dev" /\
  Replace "abc" "" "-" = "-a-b-c-".
Proof. repeat split; reflexivity. Qed.

(** ** Start-up and shutdown *)

Section Startup.

Variable C : packs.Pack.
Variable E : Env.
Variable S : Service.

Lemma load_config_missing (w : World C) :
  flagDaemon (flags E) = true ->
  flagConfig (flags E) <> "" ->
  stat_of E (flagConfig (flags E)) (w_fs w) = StatNotExist ->
  load_config C E S (zeroConfig S) w =
  (inl 1, emit (EStat (flagConfig (flags E)) StatNotExist) w).
Proof.
  intros Hd Hc Hst. unfold load_config, os_Stat.
  apply String.eqb_neq in Hc. now rewrite Hd, Hc, Hst.
Qed.

Lemma load_config_default (w : World C) :
  flagConfig (flags E) = "" ->
  load_config C E S (zeroConfig S) w = (inr (SetDefaults S (zeroConfig S)), w).
Proof.
  intros Hc. unfold load_config. rewrite Hc. simpl. now rewrite andb_false_r.
Qed.

(** C8 (as the code has it): in daemon mode a [-c] path that is given and
    does not exist is a start-up failure, [main] exits with code 1 right
    after the stat of the path; the default configuration is what [main]
    uses when no [-c] path is given: it then serves with the defaults and
    the template directory of the flags, or exits with code 1 when the API
    does not start. *)
Theorem missing_config_path_fails_startup args (w : World C) :
  flagDaemon (flags E) = true ->
  first_arg_is args "help" "-h" = false ->
  first_arg_is args "version" "-v" = false ->
  (flagConfig (flags E) <> "" ->
   stat_of E (flagConfig (flags E)) (w_fs w) = StatNotExist ->
   main C E S args w = (Exit 1, emit (EStat (flagConfig (flags E)) StatNotExist) w)) /\
  (flagConfig (flags E) = "" ->
   main C E S args w =
   match StartAPI S (set_template_path S (SetDefaults S (zeroConfig S))
                       (flagTemplates (flags E))) with
   | Some _ => (Exit 1, w)
   | None =>
       (Serving (set_template_path S (SetDefaults S (zeroConfig S))
                   (flagTemplates (flags E))) daemon_init, w)
   end).
Proof.
  intros Hd Hh Hv. split.
  - intros Hc Hst. unfold main. rewrite Hh, Hv.
    now rewrite (load_config_missing w Hd Hc Hst).
  - intros Hc. unfold main. rewrite Hh, Hv.
    now rewrite (load_config_default w Hc), Hd.
Qed.

Lemma main_serving args (w : World C) cfg d w' :
  main C E S args w = (Serving cfg d, w') ->
  flagDaemon (flags E) = true /\ d = daemon_init /\ StartAPI S cfg = None.
Proof.
  unfold main.
  destruct (first_arg_is args "help" "-h"); [discriminate|].
  destruct (first_arg_is args "version" "-v"); [discriminate|].
  destruct (load_config C E S (zeroConfig S) w) as [[code|config] w1]; [discriminate|].
  destruct (flagDaemon (flags E)).
  - destruct (StartAPI S _) eqn:Hs; [discriminate|].
    intros H. inversion H; subst. auto.
  - destruct (analyze _ _ _ _ _ _ _ _ _ _) as [[?|?] ?]; discriminate.
Qed.

End Startup.

(** ** The daemon *)

Lemma dnext_init l s : dnext daemon_init l = Some s -> l = LSignal.
Proof. destruct l; simpl; intros H; try discriminate; reflexivity. Qed.

Lemma dnext_needs s l s' :
  dnext s l = Some s' -> needs s = needs s' \/ needs s = l :: needs s'.
Proof.
  destruct s as [[] [] []|c], l; simpl; intros H; inversion H; subst; simpl; auto.
Qed.

Lemma drun_needs ls : forall s c,
  drun s ls = Some (Exited c) -> needs s `sublist_of` ls.
Proof.
  induction ls as [|l ls IH]; intros s c H; simpl in H.
  - inversion H; subst. simpl. constructor.
  - destruct (dnext s l) as [s'|] eqn:Hs; [|discriminate].
    destruct (dnext_needs _ _ _ Hs) as [-> | ->].
    + apply sublist_cons. eauto.
    + apply sublist_skip. eauto.
Qed.

Lemma drun_exit_code ls : forall s c,
  drun s ls = Some (Exited c) -> s = Exited c \/ c = 0.
Proof.
  induction ls as [|l ls IH]; intros s c H; simpl in H.
  - inversion H; auto.
  - destruct (dnext s l) as [s'|] eqn:Hs; [|discriminate].
    destruct (IH _ _ H) as [-> | ->]; [|auto].
    right. destruct s as [[] [] []|c'], l; simpl in Hs; inversion Hs; reflexivity.
Qed.

Lemma dnext_not_init s l : dnext s l <> Some daemon_init.
Proof. destruct s as [[] [] []|c], l; simpl; discriminate. Qed.

Lemma drun_back_to_init ls : forall s,
  drun s ls = Some daemon_init -> ls = [].
Proof.
  induction ls as [|l ls IH]; intros s H; [reflexivity|]. simpl in H.
  destruct (dnext s l) as [s'|] eqn:Hs; [|discriminate].
  specialize (IH _ H). subst ls. simpl in H. inversion H; subst.
  now apply dnext_not_init in Hs.
Qed.

Lemma drun_potential ls : forall s s',
  drun s ls = Some s' ->
  own_steps ls + potential s' <= 3 * signals ls + potential s.
Proof.
  unfold own_steps, signals.
  induction ls as [|l ls IH]; intros s s' H; simpl in H.
  - inversion H; subst. simpl. lia.
  - destruct (dnext s l) as [s1|] eqn:Hs; [|discriminate].
    specialize (IH _ _ H).
    destruct s as [[] [] []|c], l; simpl in Hs; inversion Hs; subst;
      simpl in *; lia.
Qed.

(** C9: the shutdown handshake of the daemon.  In daemon mode, once the
    configuration is loaded and the API has started, [main] does not
    return and does not exit: it serves, both tasks blocked, and with an
    empty signal buffer the only step possible is the arrival of an
    interrupt, which fills the buffer.  After an interrupt, the second
    task takes the signal, the two tasks meet on [cleanupDone] and [main]
    exits with code 0.  The same holds when the interrupt was delivered
    while the API was starting (after [signal.Notify], line 231) and
    waits in the buffer as the tasks block: for the empty buffer and for
    the full one, every run that ends the process ends it with code 0 and
    contains, in this order, the interrupt if none was buffered, the
    receipt of the signal, the handshake and the exit; once an interrupt
    has arrived or is buffered the process is never stuck before it has
    exited; and it takes at most three steps of its own per interrupt. *)
Theorem daemon_shutdown_handshake C E S args (w w1 : World C) conf :
  flagDaemon (flags E) = true ->
  first_arg_is args "help" "-h" = false ->
  first_arg_is args "version" "-v" = false ->
  load_config C E S (zeroConfig S) w = (inr conf, w1) ->
  StartAPI S (set_template_path S conf (flagTemplates (flags E))) = None ->
  main C E S args w =
    (Serving (set_template_path S conf (flagTemplates (flags E))) daemon_init, w1) /\
  (forall l s, dnext daemon_init l = Some s ->
     l = LSignal /\ s = Running true WRange MRecv) /\
  drun daemon_init [LSignal; LWorkerRecv; LHandshake; LExit] = Some (Exited 0) /\
  drun (Running true WRange MRecv) [LWorkerRecv; LHandshake; LExit] = Some (Exited 0) /\
  (forall b ls c,
     drun (Running b WRange MRecv) ls = Some (Exited c) ->
     c = 0 /\
     (if b then [LWorkerRecv; LHandshake; LExit]
      else [LSignal; LWorkerRecv; LHandshake; LExit]) `sublist_of` ls) /\
  (forall b ls s,
     drun (Running b WRange MRecv) ls = Some s -> b = true \/ In LSignal ls ->
     s = Exited 0 \/ exists l s', internal l = true /\ dnext s l = Some s') /\
  (forall b ls s,
     drun (Running b WRange MRecv) ls = Some s ->
     own_steps ls <= 3 * (signals ls + if b then 1 else 0)).
Proof.
  intros Hd Hh Hv Hl Hs.
  split; [|split; [|split; [|split; [|split; [|split]]]]].
  - unfold main. now rewrite Hh, Hv, Hl, Hd, Hs.
  - intros l s H. destruct l; simpl in H; inversion H. auto.
  - reflexivity.
  - reflexivity.
  - intros b ls c H. split.
    + destruct (drun_exit_code _ _ _ H) as [Hc|Hc]; [discriminate|exact Hc].
    + pose proof (drun_needs _ _ _ H) as Hn. now destruct b.
  - intros b ls s H Hin.
    destruct s as [b' wk m|c].
    + right. destruct b', wk, m;
        try solve [ exists LWorkerRecv; eexists; split; reflexivity
                  | exists LHandshake; eexists; split; reflexivity
                  | exists LExit; eexists; split; reflexivity ].
      pose proof (drun_back_to_init _ _ H) as Hnil. subst ls.
      simpl in H. inversion H; subst.
      destruct Hin as [Hin|Hin]; [discriminate|contradiction].
    + left. destruct (drun_exit_code _ _ _ H) as [Hc|Hc]; [discriminate|now subst].
  - intros b ls s H. pose proof (drun_potential _ _ _ H) as Hp.
    destruct b; simpl in Hp; lia.
Qed.

(** * The statements at work on the concrete world *)

Lemma demo_remote_unchanged k : remote_unchanged Demo.E3 Demo.cacheDir k "3".
Proof.
  intros k' u b _ Hu Hb. exists (Demo.manifest "3").
  assert (Hu' : u = Demo.manifestURL) by (destruct Hu as [-> | ->]; reflexivity).
  subst u. vm_compute in Hb. inversion Hb; subst b.
  split; [reflexivity|]. split; [reflexivity|].
  intros f [<-|[<-|[<-|[]]]]; vm_compute; discriminate.
Qed.

Lemma overwrite_guard_witness :
  (exists file w2,
     analyze Demo.demoPack Demo.E3 true "/p" "/tpl" "production" true false "dockerfile"
       (Demo.world {[ "/p/Dockerfile" := "FROM old" ]})
       = (Err (already_exists file), w2) /\
     (file = "Dockerfile" \/ file = "service.yml") /\
     present Demo.E3 (filepath_Join Demo.E3 "/p" file)
       (Demo.detected {[ "/p/Dockerfile" := "FROM old" ]}) /\
     w_fs w2 = w_fs (Demo.detected {[ "/p/Dockerfile" := "FROM old" ]}) /\
     w_pack w2 = w_pack (Demo.detected {[ "/p/Dockerfile" := "FROM old" ]}) /\
     Forall (fun e => is_generation e = false)
       (events_since (Demo.world {[ "/p/Dockerfile" := "FROM old" ]}) w2)) /\
  (exists r w3 o,
     analyze Demo.demoPack Demo.E3 true "/p" "/tpl" "production" true true "dockerfile"
       (Demo.world {[ "/p/Dockerfile" := "FROM old" ]}) = (r, w3) /\
     In (EAnalyze "/p" "production" (negb true) o)
       (events_since (Demo.world {[ "/p/Dockerfile" := "FROM old" ]}) w3)).
Proof.
  apply (overwrite_guard Demo.demoPack Demo.E3 true "/p" "/tpl" "production" true
           "dockerfile" (Demo.world {[ "/p/Dockerfile" := "FROM old" ]})
           (Demo.detected {[ "/p/Dockerfile" := "FROM old" ]}) "/p" []).
  - vm_compute. reflexivity.
  - left. vm_compute. reflexivity.
Defined.

Lemma sync_idempotent_witness :
  (exists c w',
     getTempaltes Demo.demoPack Demo.E3 Demo.cacheDir (Demo.cached "3") = (Ok tt, w') /\
     w_fs w' = w_fs (Demo.cached "3") /\
     events_since (Demo.cached "3") w' =
       [ EFetch (branchURL Demo.E3 templatePath) (Ok "manifest 3");
         EStat (filepath_Join Demo.E3 Demo.cacheDir "templates.json")
           (stat_of Demo.E3 (filepath_Join Demo.E3 Demo.cacheDir "templates.json")
              (w_fs (Demo.cached "3")));
         EReadFile (filepath_Join Demo.E3 Demo.cacheDir "templates.json") (Ok c) ]) /\
  (exists c w',
     getTempaltes Demo.demoPack Demo.E3 Demo.cacheDir
       (snd (getTempaltes Demo.demoPack Demo.E3 Demo.cacheDir (Demo.world ∅)))
       = (Ok tt, w') /\
     w_fs w' = w_fs (snd (getTempaltes Demo.demoPack Demo.E3 Demo.cacheDir (Demo.world ∅))) /\
     events_since (snd (getTempaltes Demo.demoPack Demo.E3 Demo.cacheDir (Demo.world ∅))) w' =
       [ EFetch (branchURL Demo.E3 templatePath) (Ok "manifest 3");
         EStat (filepath_Join Demo.E3 Demo.cacheDir "templates.json")
           (stat_of Demo.E3 (filepath_Join Demo.E3 Demo.cacheDir "templates.json")
              (w_fs (snd (getTempaltes Demo.demoPack Demo.E3 Demo.cacheDir (Demo.world ∅)))));
         EReadFile (filepath_Join Demo.E3 Demo.cacheDir "templates.json") (Ok c) ]).
Proof.
  split.
  - apply (sync_idempotent_when_versions_match Demo.demoPack Demo.E3 Demo.cacheDir
             "manifest 3" (Demo.manifest "3") (Demo.cached "3")).
    + vm_compute. reflexivity.
    + vm_compute. reflexivity.
    + left. exists "manifest 3"%string, (Demo.manifest "3").
      repeat split; vm_compute; reflexivity.
  - apply (sync_idempotent_when_versions_match Demo.demoPack Demo.E3 Demo.cacheDir
             "manifest 3" (Demo.manifest "3")
             (snd (getTempaltes Demo.demoPack Demo.E3 Demo.cacheDir (Demo.world ∅)))).
    + vm_compute. reflexivity.
    + vm_compute. reflexivity.
    + right. exists (Demo.world ∅). split.
      * vm_compute. reflexivity.
      * apply demo_remote_unchanged.
Defined.

Lemma sync_downloads_witness :
  getTempaltes Demo.demoPack Demo.E3 Demo.cacheDir (Demo.cached "2") =
    downloadTemplates Demo.demoPack Demo.E3 Demo.cacheDir (Demo.manifest "3")
      (compared Demo.E3 Demo.cacheDir "manifest 3" "manifest 2" (Demo.cached "2")) /\
  In (ECreate (cache_path Demo.E3 Demo.cacheDir Demo.serviceEntry) None)
     (events_since (Demo.cached "2")
        (snd (getTempaltes Demo.demoPack Demo.E3 Demo.cacheDir (Demo.cached "2")))) /\
  (exists c',
     In (ECopy (cache_path Demo.E3 Demo.cacheDir Demo.serviceEntry) c' None)
        (events_since (Demo.cached "2")
           (snd (getTempaltes Demo.demoPack Demo.E3 Demo.cacheDir (Demo.cached "2"))))) /\
  is_Some (w_fs (snd (getTempaltes Demo.demoPack Demo.E3 Demo.cacheDir (Demo.cached "2")))
             !! cache_path Demo.E3 Demo.cacheDir Demo.serviceEntry).
Proof.
  destruct (sync_downloads_when_versions_differ Demo.demoPack Demo.E3 Demo.cacheDir
              "manifest 3" (Demo.manifest "3") "manifest 2" (Demo.manifest "2")
              (Demo.cached "2")
              ltac:(vm_compute; reflexivity) ltac:(vm_compute; reflexivity)
              ltac:(vm_compute; reflexivity) ltac:(reflexivity)
              ltac:(vm_compute; reflexivity) ltac:(simpl; discriminate))
    as [Hrun Hall].
  split; [exact Hrun|].
  apply Hall.
  - vm_compute. reflexivity.
  - simpl. auto.
Defined.

(** C5, the claim as stated, fails: the remote side publishes version 3
    between the request that is compared (answered with version 2) and the
    request of the download; templates.json receives version 3. *)
Lemma compared_manifest_not_written :
  ~ writes_compared_manifest (C := Demo.demoPack)
      (Demo.env Demo.republished defaultFlags) Demo.cacheDir (Demo.cached "1").
Proof.
  intros H.
  specialize (H "manifest 2"%string
                (fst (getTempaltes Demo.demoPack (Demo.env Demo.republished defaultFlags)
                        Demo.cacheDir (Demo.cached "1")))
                (snd (getTempaltes Demo.demoPack (Demo.env Demo.republished defaultFlags)
                        Demo.cacheDir (Demo.cached "1")))
                "manifest 3"%string).
  assert (Hne : "manifest 3"%string <> "manifest 2"%string) by discriminate.
  apply Hne, H.
  - vm_compute. reflexivity.
  - vm_compute. reflexivity.
  - vm_compute. auto 10.
Qed.

Lemma full_download_witness :
  exists cm cs,
    List.length cs = List.length (all_entries (Demo.manifest "3")) /\
    http Demo.E3 (w_reqs (Demo.world ∅)) (branchURL Demo.E3 (URL (manifestFile Demo.E3)))
      = Ok cm /\
    (forall i f c, all_entries (Demo.manifest "3") !! i = Some f -> cs !! i = Some c ->
       http Demo.E3 (w_reqs (Demo.world ∅) + S i) (branchURL Demo.E3 (URL f)) = Ok c) /\
    events_since (Demo.world ∅)
      (snd (downloadTemplates Demo.demoPack Demo.E3 Demo.cacheDir (Demo.manifest "3")
              (Demo.world ∅))) =
      download_log Demo.E3 Demo.cacheDir
        (manifestFile Demo.E3 :: all_entries (Demo.manifest "3")) (cm :: cs) /\
    w_fs (snd (downloadTemplates Demo.demoPack Demo.E3 Demo.cacheDir (Demo.manifest "3")
                 (Demo.world ∅))) =
      store_all Demo.E3 Demo.cacheDir
        (manifestFile Demo.E3 :: all_entries (Demo.manifest "3")) (cm :: cs)
        (w_fs (Demo.world ∅)) /\
    (forall b,
       http Demo.E3 (w_reqs (Demo.world ∅)) (branchURL Demo.E3 (URL (manifestFile Demo.E3)))
         = Ok b ->
       In (ECopy (filepath_Join Demo.E3 Demo.cacheDir "templates.json") b None)
          (events_since (Demo.world ∅)
             (snd (downloadTemplates Demo.demoPack Demo.E3 Demo.cacheDir
                     (Demo.manifest "3") (Demo.world ∅))))).
Proof.
  apply (full_download_writes_refetched_manifest Demo.demoPack Demo.E3 Demo.cacheDir
           (Demo.manifest "3") (Demo.world ∅)).
  vm_compute. reflexivity.
Defined.

Lemma failed_entry_witness :
  downloadTemplates Demo.demoPack (Demo.env_denied (fun _ => "3") defaultFlags)
    Demo.cacheDir (Demo.manifest "3") (Demo.world ∅) =
  (Err "permission denied",
   snd (downloadSingleFile Demo.demoPack (Demo.env_denied (fun _ => "3") defaultFlags)
          Demo.cacheDir Demo.serviceEntry
          (snd (downloadEach Demo.demoPack (Demo.env_denied (fun _ => "3") defaultFlags)
                  Demo.cacheDir
                  [manifestFile (Demo.env_denied (fun _ => "3") defaultFlags);
                   Demo.rubyEntry]
                  (Demo.world ∅))))).
Proof.
  apply (failed_entry_aborts_download Demo.demoPack
           (Demo.env_denied (fun _ => "3") defaultFlags) Demo.cacheDir (Demo.manifest "3")
           [Demo.rubyEntry] Demo.serviceEntry [Demo.composeEntry] (Demo.world ∅)
           (snd (downloadEach Demo.demoPack (Demo.env_denied (fun _ => "3") defaultFlags)
                   Demo.cacheDir
                   [manifestFile (Demo.env_denied (fun _ => "3") defaultFlags);
                    Demo.rubyEntry]
                   (Demo.world ∅)))).
  - reflexivity.
  - vm_compute. reflexivity.
  - vm_compute. reflexivity.
Defined.


Lemma daemon_shutdown_witness :
  main Demo.demoPack (Demo.env (fun _ => "3") (Demo.daemonFlags "/etc/starter.conf"))
    Demo.demoService [] Demo.configured =
    (Serving (S := Demo.demoService) "port=9090;templates=" daemon_init,
     emit (EStat "/etc/starter.conf" StatNil) Demo.configured) /\
  drun daemon_init [LSignal; LWorkerRecv; LHandshake; LExit] = Some (Exited 0) /\
  [LSignal; LWorkerRecv; LHandshake; LExit]
    `sublist_of` [LSignal; LSignal; LWorkerRecv; LSignal; LHandshake; LExit] /\
  own_steps [LSignal; LWorkerRecv; LSignal] <= 3 * (signals [LSignal; LWorkerRecv; LSignal] + 0).
Proof.
  destruct (daemon_shutdown_handshake Demo.demoPack
              (Demo.env (fun _ => "3") (Demo.daemonFlags "/etc/starter.conf"))
              Demo.demoService [] Demo.configured
              (emit (EStat "/etc/starter.conf" StatNil) Demo.configured) "port=9090")
    as (Hmain & _ & Hrun & _ & Hexit & _ & Hbound).
  - reflexivity.
  - reflexivity.
  - reflexivity.
  - vm_compute. reflexivity.
  - reflexivity.
  - split; [exact Hmain|]. split; [exact Hrun|]. split.
    + apply (Hexit false [LSignal; LSignal; LWorkerRecv; LSignal; LHandshake; LExit] 0).
      reflexivity.
    + apply (Hbound false [LSignal; LWorkerRecv; LSignal] (Running true WSend MRecv)).
      reflexivity.
Defined.

Lemma result_reports_witness :
  (exists pf,
     w_pack (snd (Demo.generate false "dockerfile,service" ∅)) = Some pf /\
     OK {| Warnings := ["analysed production"; "wrote Dockerfile"; "wrote service.yml"];
           OK := true; Language := "Ruby"; Framework := "Rails";
           FrameworkVersion := "4.2" |} = true /\
     Language {| Warnings := ["analysed production"; "wrote Dockerfile"; "wrote service.yml"];
                 OK := true; Language := "Ruby"; Framework := "Rails";
                 FrameworkVersion := "4.2" |} = packs.Name Demo.demoPack pf /\
     Framework {| Warnings := ["analysed production"; "wrote Dockerfile"; "wrote service.yml"];
                  OK := true; Language := "Ruby"; Framework := "Rails";
                  FrameworkVersion := "4.2" |} = packs.Framework Demo.demoPack pf /\
     FrameworkVersion
       {| Warnings := ["analysed production"; "wrote Dockerfile"; "wrote service.yml"];
          OK := true; Language := "Ruby"; Framework := "Rails";
          FrameworkVersion := "4.2" |} = packs.FrameworkVersion Demo.demoPack pf /\
     Warnings {| Warnings := ["analysed production"; "wrote Dockerfile"; "wrote service.yml"];
                 OK := true; Language := "Ruby"; Framework := "Rails";
                 FrameworkVersion := "4.2" |} = packs.GetMessages Demo.demoPack pf) /\
  (forall g, exists res',
     analyze (with_messages Demo.demoPack g) Demo.E3 true "/p" "/tpl" "production"
       true false "dockerfile,service" (Demo.world ∅)
       = (Ok res', snd (Demo.generate false "dockerfile,service" ∅)) /\
     OK res' = true).
Proof.
  apply (result_reports_pack Demo.demoPack Demo.E3 true "/p" "/tpl" "production"
           true false "dockerfile,service" (Demo.world ∅)).
  vm_compute. reflexivity.
Defined.

(** C8, the claim as stated, fails: with [-daemon -c /etc/starter.conf]
    and no such file, [main] does not go on with the defaults. *)
Lemma missing_config_does_not_fall_back :
  ~ missing_config_falls_back Demo.demoPack
      (Demo.env (fun _ => "3") (Demo.daemonFlags "/etc/starter.conf"))
      Demo.demoService (Demo.world ∅).
Proof.
  intros H.
  destruct (H eq_refl ltac:(discriminate) eq_refl) as (w' & Hw').
  vm_compute in Hw'. discriminate Hw'.
Qed.

Lemma missing_config_witness :
  main Demo.demoPack (Demo.env (fun _ => "3") (Demo.daemonFlags "/etc/starter.conf"))
    Demo.demoService [] (Demo.world ∅) =
  (Exit 1, emit (EStat "/etc/starter.conf" StatNotExist) (Demo.world ∅)) /\
  main Demo.demoPack (Demo.env (fun _ => "3") (Demo.daemonFlags ""))
    Demo.demoService [] (Demo.world ∅) =
  (Serving (S := Demo.demoService) "defaults;templates=" daemon_init, Demo.world ∅).
Proof.
  split.
  - apply (proj1 (missing_config_path_fails_startup Demo.demoPack
                    (Demo.env (fun _ => "3") (Demo.daemonFlags "/etc/starter.conf"))
                    Demo.demoService [] (Demo.world ∅) eq_refl eq_refl eq_refl)).
    + discriminate.
    + reflexivity.
  - apply (proj2 (missing_config_path_fails_startup Demo.demoPack
                    (Demo.env (fun _ => "3") (Demo.daemonFlags ""))
                    Demo.demoService [] (Demo.world ∅) eq_refl eq_refl eq_refl)).
    reflexivity.
Defined.

Lemma compose_not_guarded_witness :
  analyze Demo.demoPack Demo.E3 true "/p" "/tpl" "production" true true "docker-compose"
    (Demo.world Demo.composeProject)
    = (fst (Demo.generate false "docker-compose" Demo.composeProject),
       snd (Demo.generate false "docker-compose" Demo.composeProject)) /\
  In (EWriteDockerComposeYAML "/tpl" "/p" false None)
     (events_since (Demo.world Demo.composeProject)
        (snd (Demo.generate false "docker-compose" Demo.composeProject))) /\
  (forall e, fst (Demo.generate false "docker-compose" Demo.composeProject) = Err e ->
     e <> already_exists "docker-compose.yml").
Proof.
  edestruct (compose_file_not_guarded Demo.demoPack Demo.E3 true "/p" "/tpl" "production"
               true "docker-compose" (Demo.world Demo.composeProject)
               (fst (Demo.generate false "docker-compose" Demo.composeProject))
               (snd (Demo.generate false "docker-compose" Demo.composeProject)))
    as [Herr Hrun].
  { vm_compute. reflexivity. }
  edestruct (Hrun "/p"%string [] (Demo.detected Demo.composeProject)) as [Hsame _].
  { vm_compute. reflexivity. }
  { vm_compute. discriminate. }
  { vm_compute. discriminate. }
  { vm_compute. reflexivity. }
  split; [exact Hsame|]. split; [|exact Herr].
  vm_compute. auto 10.
Defined.

(** * Further properties of the code *)

(** ** Strings *)

Lemma prefix_app sub : forall s,
  String.prefix sub s = true <-> exists post, s = (sub ++ post)%string.
Proof.
  induction sub as [|a sub IH]; intros s; simpl.
  - split; [intros _; now exists s|intros _; now destruct s].
  - destruct s as [|b s].
    + split; [discriminate|intros (post & H); discriminate].
    + simpl. destruct (Ascii.ascii_dec a b) as [->|Hne].
      * rewrite IH. split.
        -- intros (post & ->). now exists post.
        -- intros (post & H). exists post. simpl in H. now inversion H.
      * split; [discriminate|]. intros (post & H). simpl in H. inversion H. congruence.
Qed.

Lemma Contains_unfold s sub :
  Contains s sub =
  String.prefix sub s ||
  match s with EmptyString => false | String _ s' => Contains s' sub end.
Proof. destruct s; reflexivity. Qed.

(** X1: [Contains], the model of [strings.Contains] that selects the
    writers, holds exactly when the second string occurs in the first:
    the first is some text, the second, and some text. *)
Theorem Contains_occurs s sub :
  Contains s sub = true <-> exists pre post, s = (pre ++ sub ++ post)%string.
Proof.
  split.
  - induction s as [|c s IH]; rewrite Contains_unfold; intros H;
      apply orb_true_iff in H; destruct H as [H|H]; try discriminate.
    + apply prefix_app in H. destruct H as (post & ->). now exists ""%string, post.
    + apply prefix_app in H. destruct H as (post & ->). now exists ""%string, post.
    + destruct (IH H) as (pre & post & ->). now exists (String c pre), post.
  - intros (pre & post & ->). induction pre as [|c pre IH]; rewrite Contains_unfold.
    + simpl. apply orb_true_iff. left. apply prefix_app. now exists post.
    + apply orb_true_iff. right. exact IH.
Qed.

Lemma replace_from_cons c s old new :
  replace_from 0 (String c s) old new =
  if String.prefix old (String c s)
  then (new ++ replace_from (String.length old - 1) s old new)%string
  else String c (replace_from 0 s old new).
Proof. reflexivity. Qed.

Lemma replace_from_absent old new : forall s,
  Contains s old = false -> replace_from 0 s old new = s.
Proof.
  induction s as [|c s IH]; intros H; [reflexivity|].
  rewrite Contains_unfold in H. apply orb_false_iff in H. destruct H as [Hp Hc].
  rewrite replace_from_cons, Hp. now rewrite IH.
Qed.

Section Urls.

Variable E : Env.

(** X2: a URL without the placeholder "{{.branch}}" is requested as it
    is written in the manifest: the substitution of the branch changes
    nothing. *)
Theorem branchURL_without_placeholder url :
  Contains url "{{.branch}}" = false -> branchURL E url = url.
Proof. intros H. unfold branchURL, Replace. now apply replace_from_absent. Qed.

(** X3: for every branch, the manifest is requested from the fixed
    address with the branch in the place of the placeholder.  The download
    substitutes once more in that address before it requests the manifest
    again; when the address no longer holds a placeholder, that is, when
    the branch name does not bring one in, both requests go to the same
    address. *)
Theorem manifest_address :
  branchURL E templatePath =
    ("https://raw.githubusercontent.com/cloud66/starter/" ++ flagBranch (flags E)
       ++ "/templates/templates.json")%string /\
  (Contains (branchURL E templatePath) "{{.branch}}" = false ->
   branchURL E (URL (manifestFile E)) = branchURL E templatePath).
Proof.
  split; [reflexivity|].
  change (URL (manifestFile E)) with (branchURL E templatePath).
  generalize (branchURL E templatePath). intros u H.
  unfold branchURL, Replace. now apply replace_from_absent.
Qed.

End Urls.

(** ** The template cache, further *)

Section CacheMore.

Variable C : packs.Pack.
Variable E : Env.

(** *** What a sync can touch *)

Lemma confined_ret {A} S (a : A) : confined S (ret (C:=C) a).
Proof. intros w r w' H. inversion H; subst. auto. Qed.

Lemma confined_quiet {A} S (m : M C A) :
  (forall w r w', m w = (r, w') ->
     w_fs w' = w_fs w /\ w_pack w' = w_pack w /\ w_globals w' = w_globals w) ->
  confined S m.
Proof.
  intros Hm w r w' H. destruct (Hm _ _ _ H) as (Hf & Hp & Hg).
  rewrite Hf. auto.
Qed.

Lemma confined_bind {A B} S (m : M C A) (k : A -> M C B) :
  confined S m -> (forall a, confined S (k a)) -> confined S (bind m k).
Proof.
  intros Hm Hk w r w'. unfold bind.
  destruct (m w) as [[a|e] w1] eqn:Em; intros H.
  - destruct (Hm _ _ _ Em) as (H1 & H2 & H3 & H4).
    destruct (Hk a _ _ _ H) as (K1 & K2 & K3 & K4).
    repeat split.
    + intros q Hq. now rewrite K1, H1.
    + intros q Hq. auto.
    + congruence.
    + congruence.
  - inversion H; subst. eauto.
Qed.

Lemma confined_if {A} S (b : bool) (m1 m2 : M C A) :
  confined S m1 -> confined S m2 -> confined S (if b then m1 else m2).
Proof. now destruct b. Qed.

Lemma confined_insert {A} (S : string -> Prop) p (m : M C A) :
  S p ->
  (forall w r w', m w = (r, w') ->
     (w_fs w' = w_fs w \/ exists c, w_fs w' = <[p := c]> (w_fs w)) /\
     w_pack w' = w_pack w /\ w_globals w' = w_globals w) ->
  confined S m.
Proof.
  intros Sp Hm w r w' H. destruct (Hm _ _ _ H) as ([Hf|(c & Hf)] & Hp & Hg);
    rewrite Hf; repeat split; auto.
  - intros q Hq. apply lookup_insert_ne. intros ->. contradiction.
  - intros q Hq. destruct (decide (p = q)) as [->|Hne].
    + rewrite lookup_insert_eq. eauto.
    + now rewrite lookup_insert_ne.
Qed.

Lemma confined_downloadSingleFile S tempDir f :
  S (cache_path E tempDir f) -> confined S (downloadSingleFile C E tempDir f).
Proof.
  intros Sp. unfold downloadSingleFile.
  apply confined_bind.
  - apply confined_quiet. intros w r w' H. unfold fetch in H. now inversion H.
  - intros body. apply confined_bind.
    + apply confined_insert with (p := cache_path E tempDir f); [exact Sp|].
      intros w r w' H. unfold os_Create, cache_path in *.
      destruct (create_err E _); inversion H; subst; simpl; eauto.
    + intros _. apply confined_bind; [|intros; apply confined_ret].
      apply confined_insert with (p := cache_path E tempDir f); [exact Sp|].
      intros w r w' H. unfold io_Copy, cache_path in *.
      destruct (copy_err E _) as [[n e]|]; inversion H; subst; simpl; eauto.
Qed.

Lemma confined_downloadEach (S : string -> Prop) tempDir files :
  (forall f, In f files -> S (cache_path E tempDir f)) ->
  confined S (downloadEach C E tempDir files).
Proof.
  induction files as [|f files IH]; intros HS; simpl.
  - apply confined_ret.
  - apply confined_bind.
    + apply confined_downloadSingleFile. apply HS. simpl; auto.
    + intros _. apply IH. intros g Hg. apply HS. simpl; auto.
Qed.

Lemma confined_downloadTemplates tempDir td :
  confined (sync_target E tempDir td) (downloadTemplates C E tempDir td).
Proof.
  intros w r w' H. rewrite downloadTemplates_each in H. revert w r w' H.
  apply confined_downloadEach. intros f Hf. now exists f.
Qed.

(** After the manifest is fetched, the sync writes only what a download of
    its templates writes. *)
Lemma confined_sync tempDir tv :
  confined (sync_target E tempDir tv)
           (bind (download_if_absent C E tempDir tv)
                 (fun _ => download_if_newer C E tempDir tv)).
Proof.
  apply confined_bind.
  - unfold download_if_absent. apply confined_bind.
    + apply confined_quiet. intros w0 r0 w0' H0. unfold os_Stat in H0. now inversion H0.
    + intros st. apply confined_if; [|apply confined_ret].
      apply confined_bind; [|intros; apply confined_downloadTemplates].
      apply confined_quiet. intros w0 r0 w0' H0. unfold os_MkdirAll in H0.
      now inversion H0.
  - intros _. unfold download_if_newer. apply confined_bind.
    + apply confined_quiet. intros w0 r0 w0' H0. unfold ioutil_ReadFile in H0.
      now inversion H0.
    + intros c. apply confined_bind.
      * apply confined_quiet. intros w0 r0 w0' H0. now inversion H0.
      * intros ltv. apply confined_if;
          [apply confined_downloadTemplates|apply confined_ret].
Qed.

(** What a sync leaves alone. *)
Lemma getTempaltes_confined tempDir (w : World C) r w' :
  getTempaltes C E tempDir w = (r, w') ->
  (forall q,
     (forall body tv,
        http E (w_reqs w) (branchURL E templatePath) = Ok body ->
        json_Unmarshal E body = Ok tv ->
        ~ sync_target E tempDir tv q) ->
     w_fs w' !! q = w_fs w !! q) /\
  (forall q, is_Some (w_fs w !! q) -> is_Some (w_fs w' !! q)) /\
  w_pack w' = w_pack w /\ w_globals w' = w_globals w.
Proof.
  unfold getTempaltes, fetchJSON, fetch. unfold bind at 1 2.
  destruct (http E (w_reqs w) (branchURL E templatePath)) as [body|e] eqn:Hb.
  - destruct (json_Unmarshal E body) as [tv|e] eqn:Ht.
    + intros H. destruct (confined_sync tempDir tv _ _ _ H) as (H1 & H2 & H3 & H4).
      repeat split; auto.
      intros q Hq. apply H1. now apply (Hq body tv).
    + intros H. inversion H; subst. repeat split; auto.
  - intros H. inversion H; subst. repeat split; auto.
Qed.

(** X4: a sync writes the manifest and the files the remote manifest
    names, and nothing else.  Whatever its outcome, [getTempaltes] changes
    no file other than templates.json and the entries of the manifest it
    fetched and decoded, each under its name joined to the cache directory
    (none at all when the manifest cannot be fetched or decoded); it
    removes no file, and leaves the detected pack and the template
    directories of the process as they were. *)
Theorem sync_writes_listed_files tempDir (w : World C) r w' :
  getTempaltes C E tempDir w = (r, w') ->
  (forall q,
     (forall body tv,
        http E (w_reqs w) (branchURL E templatePath) = Ok body ->
        json_Unmarshal E body = Ok tv ->
        ~ sync_target E tempDir tv q) ->
     w_fs w' !! q = w_fs w !! q) /\
  (forall q, is_Some (w_fs w !! q) -> is_Some (w_fs w' !! q)) /\
  w_pack w' = w_pack w /\ w_globals w' = w_globals w.
Proof. exact (getTempaltes_confined tempDir w r w'). Qed.

(** *** Giving up before the download *)

(** X5: when the remote manifest cannot be fetched or decoded, when the
    cache directory cannot be created on first use, or when the local
    manifest is there and cannot be read or decoded, the sync returns that
    error; it has made its one request, has created or filled no file and
    the file system is as before.  In particular a local manifest that no
    longer decodes is not replaced: the sync fails until the file is
    removed. *)
Theorem sync_gives_up_without_writing tempDir (w : World C) e :
  sync_blocked E tempDir w e ->
  exists w',
    getTempaltes C E tempDir w = (Err e, w') /\
    w_fs w' = w_fs w /\
    List.filter is_write (events_since w w') = [] /\
    List.length (List.filter is_fetch (events_since w w')) = 1.
Proof.
  intros Hb. unfold getTempaltes, fetchJSON, download_if_absent, download_if_newer,
    fetch, os_Stat, os_MkdirAll, ioutil_ReadFile, bind, ret.
  destruct Hb as [e Hh|b e Hh Hj|b tv e Hh Hj Hs Hm|b tv e Hh Hj Hs Hr|b tv c e Hh Hj Hs Hr Hc];
    rewrite Hh; try rewrite Hj;
    do 3 cbn [w_fs w_log w_reqs emit next_req].
  - eexists. split; [reflexivity|]. split; [reflexivity|].
    erewrite events_since_app by (cbn [w_log emit next_req]; reflexivity). auto.
  - eexists. split; [reflexivity|]. split; [reflexivity|].
    erewrite events_since_app by (cbn [w_log emit next_req]; reflexivity). auto.
  - rewrite Hs, Hm. cbn [IsNotExist of_error].
    eexists. split; [reflexivity|]. split; [reflexivity|].
    erewrite events_since_app
      by (cbn [w_log emit next_req]; rewrite <- ?app_assoc; reflexivity). auto.
  - destruct (stat_of E (filepath_Join E tempDir "templates.json") (w_fs w)) eqn:Hst;
      try congruence; do 3 cbn [IsNotExist w_fs w_log w_reqs emit next_req]; rewrite Hr;
      (eexists; split; [reflexivity|]; split; [reflexivity|]);
      erewrite events_since_app
        by (cbn [w_log emit next_req]; rewrite <- ?app_assoc; reflexivity); auto.
  - destruct (stat_of E (filepath_Join E tempDir "templates.json") (w_fs w)) eqn:Hst;
      try congruence; do 3 cbn [IsNotExist w_fs w_log w_reqs emit next_req]; rewrite Hr, Hc;
      (eexists; split; [reflexivity|]; split; [reflexivity|]);
      erewrite events_since_app
        by (cbn [w_log emit next_req]; rewrite <- ?app_assoc; reflexivity); auto.
Qed.

(** *** One file, when it fails *)

(** X6: how [downloadSingleFile] fails.  When the request fails, or the
    file cannot be created, the file system is as before.  When the copy
    breaks off, the file holds the bytes copied so far in the place of
    what it held: the previous content is lost although the download
    failed. *)
Theorem failed_download_of_a_file tempDir f (w : World C) e w' :
  downloadSingleFile C E tempDir f w = (Err e, w') ->
  (http E (w_reqs w) (branchURL E (URL f)) = Err e /\
   w_fs w' = w_fs w /\
   events_since w w' = [EFetch (branchURL E (URL f)) (Err e)])
  \/ (exists c,
        http E (w_reqs w) (branchURL E (URL f)) = Ok c /\
        create_err E (cache_path E tempDir f) = Some e /\
        w_fs w' = w_fs w /\
        events_since w w' =
          [EFetch (branchURL E (URL f)) (Ok c);
           ECreate (cache_path E tempDir f) (Some e)])
  \/ (exists c n,
        http E (w_reqs w) (branchURL E (URL f)) = Ok c /\
        create_err E (cache_path E tempDir f) = None /\
        copy_err E (cache_path E tempDir f) = Some (n, e) /\
        w_fs w' = <[cache_path E tempDir f := String.substring 0 n c]> (w_fs w) /\
        events_since w w' =
          [EFetch (branchURL E (URL f)) (Ok c);
           ECreate (cache_path E tempDir f) None;
           ECopy (cache_path E tempDir f) (String.substring 0 n c) (Some e)]).
Proof.
  unfold downloadSingleFile, bind, fetch, os_Create, io_Copy, ret, cache_path.
  destruct (http E (w_reqs w) (branchURL E (URL f))) as [c|e1] eqn:Hh;
    [ destruct (create_err E (filepath_Join E tempDir (Name f))) as [e2|] eqn:Hc;
      [ | destruct (copy_err E (filepath_Join E tempDir (Name f))) as [[n e3]|] eqn:Hy ] | ];
    intros H; inversion H; subst; clear H.
  - right; left. exists c. split; [reflexivity|]. split; [reflexivity|].
    split; [reflexivity|].
    apply events_since_app. cbn [w_log emit next_req]. now rewrite <- app_assoc.
  - right; right. exists c, n. split; [reflexivity|]. split; [reflexivity|].
    split; [reflexivity|]. split.
    + cbn [w_fs emit set_fs next_req]. now rewrite insert_insert_eq.
    + apply events_since_app. cbn [w_log emit set_fs next_req].
      now rewrite <- !app_assoc.
  - left. split; [reflexivity|]. split; [reflexivity|].
    now apply events_since_app.
Qed.

(** *** First use *)

Lemma downloadEach_total tempDir files : forall (w : World C),
  (forall f, In f files -> healthy E tempDir f) ->
  exists w', downloadEach C E tempDir files w = (Ok tt, w').
Proof.
  induction files as [|f files IH]; intros w Hh; simpl.
  - now eexists.
  - destruct (Hh f ltac:(simpl; auto)) as (Hc & Hy & Hr).
    destruct (Hr (w_reqs w)) as (c & Hc').
    rewrite (bind_ok _ _ _ _ _ _ (downloadSingleFile_ok C E tempDir f c w Hc' Hc Hy)).
    apply IH. intros g Hg. apply Hh. simpl; auto.
Qed.

(** X7: first use on a working machine.  When templates.json is not in
    the cache, the directory can be created, the files can be stored and
    the remote side answers every request, with a manifest of one version
    throughout, the sync succeeds with exactly one full download: one
    request for the manifest, the stat, the creation of the directory, the
    download of the manifest file and of every entry, in order, and the
    read of the manifest just written, which is found up to date. *)
Theorem first_use_downloads_once tempDir b tv v (w : World C) :
  http E (w_reqs w) (branchURL E templatePath) = Ok b ->
  json_Unmarshal E b = Ok tv ->
  stat_of E (filepath_Join E tempDir "templates.json") (w_fs w) = StatNotExist ->
  mkdir_err E tempDir = None ->
  read_err E (filepath_Join E tempDir "templates.json") = None ->
  remote_unchanged E tempDir (w_reqs w) v ->
  (forall f, In f (manifestFile E :: all_entries tv) -> healthy E tempDir f) ->
  exists cm cs w',
    getTempaltes C E tempDir w = (Ok tt, w') /\
    List.length cs = List.length (all_entries tv) /\
    events_since w w' =
      [ EFetch (branchURL E templatePath) (Ok b);
        EStat (filepath_Join E tempDir "templates.json") StatNotExist;
        EMkdirAll tempDir None ]
      ++ download_log E tempDir (manifestFile E :: all_entries tv) (cm :: cs)
      ++ [ EReadFile (filepath_Join E tempDir "templates.json") (Ok cm) ] /\
    w_fs w' = store_all E tempDir (manifestFile E :: all_entries tv) (cm :: cs) (w_fs w).
Proof.
  intros Hh Hj Hs Hm Hr Hrem Hhealthy.
  destruct (Hrem _ _ _ (le_n _) (or_introl eq_refl) Hh) as (tv0 & Hj0 & Hv & Hapart).
  rewrite Hj in Hj0. inversion Hj0; subst tv0. clear Hj0.
  set (w3 := emit (EMkdirAll tempDir None)
               (emit (EStat (filepath_Join E tempDir "templates.json") StatNotExist)
                  (emit (EFetch (branchURL E templatePath) (Ok b)) (next_req w)))).
  destruct (downloadEach_total tempDir _ w3 Hhealthy) as (w4 & Hdl).
  rewrite <- downloadTemplates_each in Hdl.
  pose proof (downloadTemplates_ok_inv C E _ _ _ _ Hdl)
    as (cm & cs & Hlen & Hcm & _ & Hlog & Hfs & _).
  assert (Hk : w_reqs w <= w_reqs w3) by (subst w3; simpl; lia).
  destruct (Hrem _ _ _ Hk (or_intror eq_refl) Hcm) as (tvm & Hjm & Hvm & _).
  assert (Hlocal : w_fs w4 !! filepath_Join E tempDir "templates.json" = Some cm).
  { rewrite Hfs. simpl. rewrite store_all_other by exact Hapart. apply lookup_insert_eq. }
  exists cm, cs, (emit (EReadFile (filepath_Join E tempDir "templates.json") (Ok cm)) w4).
  split; [|split; [exact Hlen|split]].
  - unfold getTempaltes.
    rewrite (bind_ok _ _ _ _ _ _ (fetchJSON_ok C E _ _ _ _ Hh Hj)).
    assert (Habs : download_if_absent C E tempDir tv
                     (emit (EFetch (branchURL E templatePath) (Ok b)) (next_req w))
                   = (Ok tt, w4)).
    { unfold download_if_absent, bind, os_Stat, os_MkdirAll.
      cbn [w_fs emit next_req]. rewrite Hs, Hm. cbn [IsNotExist of_error]. exact Hdl. }
    rewrite (bind_ok _ _ _ _ _ _ Habs).
    unfold download_if_newer, bind, ioutil_ReadFile, read_of, ret.
    rewrite Hr, Hlocal, Hjm, Hvm, Hv, String.eqb_refl. reflexivity.
  - apply events_since_app. cbn [w_log emit]. rewrite Hlog. subst w3.
    cbn [w_log emit next_req]. now rewrite <- !app_assoc.
  - cbn [w_fs emit]. rewrite Hfs. reflexivity.
Qed.

(** *** What the cache holds after a download *)

Lemma store_all_app tempDir l1 : forall cs1 l2 cs2 fs,
  List.length cs1 = List.length l1 ->
  store_all E tempDir (l1 ++ l2) (cs1 ++ cs2) fs =
  store_all E tempDir l2 cs2 (store_all E tempDir l1 cs1 fs).
Proof.
  induction l1 as [|f l1 IH]; intros [|c cs1] l2 cs2 fs Hlen; simpl in *;
    try discriminate; auto.
Qed.

(** X8: each file of the cache holds what was answered for it.  After a
    successful full download, a file of the download (the manifest file
    or an entry) holds the body answered to its own request, the request
    numbered by its position, provided no later file of the download is
    stored under the same name; a later file of the same name replaces
    it. *)
Theorem cache_holds_fetched_content tempDir td (w w' : World C) l1 f l2 :
  downloadTemplates C E tempDir td w = (Ok tt, w') ->
  manifestFile E :: all_entries td = l1 ++ f :: l2 ->
  (forall g, In g l2 -> cache_path E tempDir g <> cache_path E tempDir f) ->
  exists c,
    http E (w_reqs w + List.length l1) (branchURL E (URL f)) = Ok c /\
    w_fs w' !! cache_path E tempDir f = Some c.
Proof.
  intros Hdl Hsplit Hlater. rewrite downloadTemplates_each, Hsplit in Hdl.
  apply downloadEach_ok_inv in Hdl.
  destruct Hdl as (cs & Hlen & Hreq & _ & Hfs & _).
  rewrite length_app in Hlen. simpl in Hlen.
  assert (Hc : exists c, cs !! List.length l1 = Some c).
  { apply lookup_lt_is_Some. lia. }
  destruct Hc as (c & Hc). exists c. split.
  - apply (Hreq (List.length l1) f c); [|exact Hc].
    rewrite lookup_app_r by lia. now rewrite Nat.sub_diag.
  - rewrite Hfs.
    rewrite <- (take_drop (List.length l1) cs).
    rewrite store_all_app by (rewrite length_take; lia).
    destruct (drop (List.length l1) cs) as [|c0 cs2] eqn:Hd.
    + apply (f_equal List.length) in Hd. rewrite length_drop in Hd. simpl in Hd. lia.
    + assert (c0 = c).
      { pose proof (lookup_drop cs (List.length l1) 0) as Hl.
        rewrite Hd, Nat.add_0_r, Hc in Hl. simpl in Hl. congruence. }
      subst c0. simpl. rewrite store_all_other by exact Hlater.
      apply lookup_insert_eq.
Qed.

End CacheMore.

(** ** The pipeline, further *)

Section PipelineMore.

Variable C : packs.Pack.
Variable E : Env.

(** *** The steps before the guard *)

Lemma resolve_path_run path (w : World C) :
  resolve_path C E path w =
  (match project_path E path with
   | Ok p => Ok p
   | Err e => Err ("Unable to detect current directory path due to " ++ e)%string
   end,
   if String.eqb path "" then emit (EGetwd (os_Getwd E)) w else w).
Proof.
  unfold resolve_path, project_path, wrap, os_Getwd_call, ret.
  destruct (String.eqb path ""); [|reflexivity].
  now destruct (os_Getwd E).
Qed.

Lemma resolve_templates_inv updateTemplates templates (w : World C) r wb :
  resolve_templates C E updateTemplates templates w = (r, wb) ->
  exists evs,
    w_log wb = w_log w ++ evs /\
    Forall (fun e => is_io e = true) evs /\
    (templates <> "" \/ updateTemplates = false -> evs = []) /\
    match r with
    | Ok _ => exists t, template_source E templates = Ok t /\
                        w_globals wb = mkGlobals t t t
    | Err e0 => exists msg,
        e0 = ("Failed to download latest templates due to " ++ msg)%string \/
        e0 = ("Failed to use  for templates due to " ++ msg)%string
    end.
Proof.
  unfold resolve_templates, template_source.
  destruct (String.eqb templates "") eqn:Ht.
  - destruct updateTemplates.
    + unfold bind, wrap, set_template_dirs.
      destruct (getTempaltes C E (filepath_Join E (homedir_Dir E) ".starter") w)
        as [[[]|e] wg] eqn:Hg; intros H; inversion H; subst;
        destruct (emits_getTempaltes C E _ _ _ _ Hg) as (evs & Hl & Hf);
        exists evs; (split; [exact Hl|]); (split; [exact Hf|]); split.
      * intros [Hne|Hu]; [|discriminate]. apply String.eqb_eq in Ht. contradiction.
      * eexists. split; reflexivity.
      * intros [Hne|Hu]; [|discriminate]. apply String.eqb_eq in Ht. contradiction.
      * exists e. now left.
    + unfold bind, ret, set_template_dirs. intros H. inversion H; subst.
      exists []. rewrite app_nil_r. repeat split; auto.
      eexists. split; reflexivity.
  - destruct (filepath_Abs E templates) as [t|e]; unfold set_template_dirs, fail;
      intros H; inversion H; subst; exists []; rewrite app_nil_r; repeat split; auto.
    + eexists. split; reflexivity.
    + exists e. now right.
Qed.

Lemma Detect_inv path (w : World C) r w1 :
  Detect C path w = (r, w1) ->
  w_globals w1 = w_globals w /\
  w_log w1 = w_log w ++
    [EDetect path match r with Ok _ => None | Err e => Some e end].
Proof.
  unfold Detect. destruct (packs.Detect C path (w_fs w)) as [[p|e] fs'];
    intros H; inversion H; subst; auto.
Qed.

(** How a run gets to the guard, or fails before it. *)
Lemma analyze_detect_inv updateTemplates path templates (w : World C) r w1 :
  analyze_detect C E updateTemplates path templates w = (r, w1) ->
  exists evs0,
    Forall (fun e => is_io e = true) evs0 /\
    (templates <> "" \/ updateTemplates = false ->
     Forall (fun e => is_cache_io e = false) evs0) /\
    ((exists e0 msg,
        r = Err e0 /\ w_log w1 = w_log w ++ evs0 /\
        (e0 = ("Unable to detect current directory path due to " ++ msg)%string \/
         e0 = ("Failed to download latest templates due to " ++ msg)%string \/
         e0 = ("Failed to use  for templates due to " ++ msg)%string))
     \/ (exists path' e,
        project_path E path = Ok path' /\
        r = Err ("Failed to detect framework due to: " ++ e)%string /\
        w_log w1 = w_log w ++ evs0 ++ [EDetect path' (Some e)])
     \/ (exists path' t p,
        project_path E path = Ok path' /\ template_source E templates = Ok t /\
        r = Ok (path', p) /\
        w_log w1 = w_log w ++ evs0 ++ [EDetect path' None] /\
        w_globals w1 = mkGlobals t t t)).
Proof.
  unfold analyze_detect, bind. rewrite resolve_path_run.
  set (w0 := if String.eqb path "" then emit (EGetwd (os_Getwd E)) w else w).
  assert (Hw0 : exists ev0, w_log w0 = w_log w ++ ev0 /\
                  Forall (fun e => is_io e = true) ev0 /\
                  Forall (fun e => is_cache_io e = false) ev0).
  { subst w0. destruct (String.eqb path "").
    - eexists [_]. repeat split; repeat constructor.
    - exists []. rewrite app_nil_r. repeat split; constructor. }
  destruct Hw0 as (ev0 & Hl0 & Hio0 & Hc0).
  destruct (project_path E path) as [path'|e] eqn:Hp.
  - destruct (resolve_templates C E updateTemplates templates w0) as [[[]|e] wb] eqn:Ht;
      destruct (resolve_templates_inv _ _ _ _ _ Ht) as (evs & Hl & Hio & Hnone & Hr).
    + destruct Hr as (t & Hsrc & Hg).
      unfold wrap, ret.
      destruct (Detect C path' wb) as [[p|e] wd] eqn:Hd;
        destruct (Detect_inv _ _ _ _ Hd) as (Hgd & Hld);
        intros H; inversion H; subst; clear H;
        exists (ev0 ++ evs); (split; [now apply Forall_app|]);
        (split; [intros Hc; rewrite (Hnone Hc), app_nil_r; exact Hc0|]).
      * right; right. exists path', t, p. repeat split; auto.
        -- now rewrite Hld, Hl, Hl0, <- !app_assoc.
        -- congruence.
      * right; left. exists path', e. repeat split; auto.
        now rewrite Hld, Hl, Hl0, <- !app_assoc.
    + intros H; inversion H; subst; clear H.
      exists (ev0 ++ evs). split; [now apply Forall_app|].
      split; [intros Hc; rewrite (Hnone Hc), app_nil_r; exact Hc0|].
      left. destruct Hr as (msg & Hr). exists e, msg. repeat split; auto.
      now rewrite Hl, Hl0, <- app_assoc.
  - intros H; inversion H; subst; clear H.
    exists ev0. split; [exact Hio0|]. split; [intros _; exact Hc0|].
    left. exists ("Unable to detect current directory path due to " ++ e)%string, e.
    repeat split; auto.
Qed.

(** *** From the guard on *)

Lemma io_addressed path environment td interactive e :
  is_io e = true -> addressed path environment td interactive e.
Proof. destruct e; simpl; intros H; try discriminate; exact I. Qed.

Lemma analyze_generate_addressed path environment noPrompt overwrite generator p t
    (w1 : World C) r w' :
  w_globals w1 = mkGlobals t t t ->
  analyze_generate C E path environment noPrompt overwrite generator p w1 = (r, w') ->
  exists evs,
    w_log w' = w_log w1 ++ evs /\
    Forall (addressed path environment t (negb noPrompt)) evs /\
    Forall (fun e => is_cache_io e = false) evs.
Proof.
  intros Hg H. pipeline_unfold. pipeline_run H;
    (eexists; split; [log_norm; reflexivity|]);
    rewrite ?Hg; simpl; split; repeat constructor.
Qed.

Lemma analyze_generate_first_failure path environment noPrompt overwrite generator p
    (w1 : World C) r w' :
  analyze_generate C E path environment noPrompt overwrite generator p w1 = (r, w') ->
  exists evs,
    w_log w' = w_log w1 ++ evs /\
    forall ev msg, In ev evs -> failure_of ev = Some msg ->
      r = Err msg /\ exists evs', evs = evs' ++ [ev].
Proof.
  intros H. pipeline_unfold. pipeline_run H;
    (eexists; split; [log_norm; reflexivity|]);
    intros ev msg Hin Hf; simpl in Hin;
    repeat (destruct Hin as [<-|Hin]; [simpl in Hf; try discriminate Hf|]);
    try contradiction;
    inversion Hf; subst; (split; [reflexivity|]);
    first [ exists []; reflexivity
          | eexists [_]; reflexivity
          | eexists [_; _]; reflexivity
          | eexists [_; _; _]; reflexivity
          | eexists [_; _; _; _]; reflexivity
          | eexists [_; _; _; _; _]; reflexivity ].
Qed.

Lemma analyze_generate_taxonomy path environment noPrompt overwrite generator p :
  fails_only pipeline_error
    (analyze_generate C E path environment noPrompt overwrite generator p).
Proof.
  intros w e w' H. pipeline_unfold. pipeline_run H; unfold pipeline_error;
    first [ left; reflexivity
          | right; left; reflexivity
          | right; right; eexists _, _; apply and_comm; split;
            [reflexivity|simpl; tauto] ].
Qed.

(** *** The properties *)

(** X9: what the pack is given.  In every run of [analyze], detection is
    asked about the resolved project path, the analysis is given that
    path, the environment and the interactive flag (the negation of
    [noPrompt]), and each of the three writers is given one and the same
    template directory, the resolved one, with that path and that flag.
    The [overwrite] flag is given to none of them. *)
Theorem pack_is_addressed updateTemplates path templates environment noPrompt overwrite
    generator (w : World C) r w' path' td :
  analyze C E updateTemplates path templates environment noPrompt overwrite generator w
    = (r, w') ->
  project_path E path = Ok path' ->
  template_source E templates = Ok td ->
  Forall (addressed path' environment td (negb noPrompt)) (events_since w w').
Proof.
  intros H Hp Ht. apply analyze_inv in H.
  destruct H as [(e & -> & Hdet)|(path'' & p & w1 & Hdet & Hgen)];
    destruct (analyze_detect_inv _ _ _ _ _ _ Hdet) as (evs0 & Hio & _ & Hcase);
    assert (Hio' : Forall (addressed path' environment td (negb noPrompt)) evs0)
      by (eapply Forall_impl; [exact Hio|]; intros a Ha; now apply io_addressed).
  - destruct Hcase as [(e0 & msg & _ & Hl & _)|[(q & e1 & Hq & _ & Hl)|(q & t & p & _ & _ & Hr & _)]].
    + now rewrite (events_since_app C _ _ _ Hl).
    + rewrite (events_since_app C _ _ _ Hl). apply Forall_app. split; [exact Hio'|].
      repeat constructor. simpl. congruence.
    + discriminate.
  - destruct Hcase as [(e0 & msg & Hr & _)|[(q & e1 & _ & Hr & _)|(q & t & p0 & Hq & Hsrc & Hr & Hl & Hg)]];
      try discriminate.
    inversion Hr; subst q p0. clear Hr.
    assert (t = td) by congruence. subst t.
    assert (path'' = path') by congruence. subst path''.
    destruct (analyze_generate_addressed _ _ _ _ _ _ _ _ _ _ Hg Hgen)
      as (evs2 & Hl2 & Ha & _).
    erewrite events_since_app by (rewrite Hl2, Hl, <- !app_assoc; reflexivity).
    apply Forall_app. split; [exact Hio'|].
    apply Forall_app. split; [|exact Ha]. repeat constructor.
Qed.

(** X10: the cache is synchronised only when no template directory is
    given and [updateTemplates] is set.  In every other run of [analyze]
    the program makes no request and creates, reads or fills no file on
    its own: its only calls to the operating system are [os.Getwd] and
    the stats of the guard. *)
Theorem no_sync_unless_asked updateTemplates path templates environment noPrompt
    overwrite generator (w : World C) r w' :
  templates <> "" \/ updateTemplates = false ->
  analyze C E updateTemplates path templates environment noPrompt overwrite generator w
    = (r, w') ->
  Forall (fun e => is_cache_io e = false) (events_since w w').
Proof.
  intros Hc H. apply analyze_inv in H.
  destruct H as [(e & -> & Hdet)|(path'' & p & w1 & Hdet & Hgen)];
    destruct (analyze_detect_inv _ _ _ _ _ _ Hdet) as (evs0 & _ & Hq & Hcase);
    specialize (Hq Hc).
  - destruct Hcase as [(e0 & msg & _ & Hl & _)|[(q & e1 & Hp & _ & Hl)|(q & t & p & _ & _ & Hr & _)]].
    + now rewrite (events_since_app C _ _ _ Hl).
    + rewrite (events_since_app C _ _ _ Hl). apply Forall_app. split; [exact Hq|].
      repeat constructor.
    + discriminate.
  - destruct Hcase as [(e0 & msg & Hr & _)|[(q & e1 & _ & Hr & _)|(q & t & p0 & Hp & Hsrc & Hr & Hl & Hg)]];
      try discriminate.
    inversion Hr; subst q p0. clear Hr.
    destruct (analyze_generate_addressed _ _ _ _ _ _ _ _ _ _ Hg Hgen)
      as (evs2 & Hl2 & _ & Hc2).
    erewrite events_since_app by (rewrite Hl2, Hl, <- !app_assoc; reflexivity).
    apply Forall_app. split; [exact Hq|].
    apply Forall_app. split; [|exact Hc2]. repeat constructor.
Qed.

(** X11: a failed sync ends the run before detection.  When the sync of
    the cache in the home directory fails, [analyze] returns its error
    behind "Failed to download latest templates due to ", in the state the
    sync left: the project was not detected and the pack was asked
    nothing. *)
Theorem sync_failure_ends_run path environment noPrompt overwrite generator
    (w w0 : World C) path' e w' :
  resolve_path C E path w = (Ok path', w0) ->
  getTempaltes C E (filepath_Join E (homedir_Dir E) ".starter") w0 = (Err e, w') ->
  analyze C E true path "" environment noPrompt overwrite generator w =
    (Err ("Failed to download latest templates due to " ++ e)%string, w') /\
  Forall (fun ev => is_io ev = true) (events_since w w') /\
  w_pack w' = w_pack w.
Proof.
  intros Hp Hs. split; [|split].
  - unfold analyze, analyze_detect.
    rewrite bind_assoc. rewrite (bind_ok _ _ _ _ _ _ Hp).
    rewrite bind_assoc. apply bind_err.
    unfold resolve_templates. simpl String.eqb. cbv iota.
    apply bind_err. unfold wrap. now rewrite Hs.
  - rewrite resolve_path_run in Hp. inversion Hp as [[Hr Hw0]].
    destruct (emits_getTempaltes C E _ _ _ _ Hs) as (evs & Hl & Hf).
    destruct (String.eqb path "").
    + erewrite events_since_app
        by (rewrite Hl, <- Hw0; cbn [w_log emit]; rewrite <- app_assoc; reflexivity).
      constructor; [reflexivity|exact Hf].
    + subst w0. now rewrite (events_since_app C _ _ _ Hl).
  - destruct (getTempaltes_confined C E _ _ _ _ Hs) as (_ & _ & Hpk & _).
    rewrite Hpk. rewrite resolve_path_run in Hp. inversion Hp as [[Hr Hw0]].
    now destruct (String.eqb path "").
Qed.

(** X12: an empty project path stands for the working directory.  When
    [os.Getwd] gives a directory, the run with no path is, after that
    call, the run with that directory as path; when it fails, the run
    fails with its error behind "Unable to detect current directory path
    due to " and does nothing else. *)
Theorem empty_path_is_working_directory updateTemplates templates environment noPrompt
    overwrite generator (w : World C) :
  (forall pwd, os_Getwd E = Ok pwd -> pwd <> "" ->
     analyze C E updateTemplates "" templates environment noPrompt overwrite generator w =
     analyze C E updateTemplates pwd templates environment noPrompt overwrite generator
       (emit (EGetwd (Ok pwd)) w)) /\
  (forall e, os_Getwd E = Err e ->
     analyze C E updateTemplates "" templates environment noPrompt overwrite generator w =
     (Err ("Unable to detect current directory path due to " ++ e)%string,
      emit (EGetwd (Err e)) w)).
Proof.
  assert (Hrun : forall path (w0 : World C),
    analyze C E updateTemplates path templates environment noPrompt overwrite generator w0 =
    match project_path E path with
    | Ok p =>
        bind (bind (resolve_templates C E updateTemplates templates)
                (fun _ => bind (wrap "Failed to detect framework due to: " (Detect C p))
                            (fun pk => ret (p, pk))))
             (fun pp => analyze_generate C E (fst pp) environment noPrompt overwrite
                          generator (snd pp))
             (if String.eqb path "" then emit (EGetwd (os_Getwd E)) w0 else w0)
    | Err e =>
        (Err ("Unable to detect current directory path due to " ++ e)%string,
         if String.eqb path "" then emit (EGetwd (os_Getwd E)) w0 else w0)
    end).
  { intros path w0. unfold analyze, analyze_detect. rewrite bind_assoc.
    unfold bind at 1. rewrite resolve_path_run.
    destruct (project_path E path); reflexivity. }
  split.
  - intros pwd Hg Hne. rewrite !Hrun. unfold project_path.
    apply String.eqb_neq in Hne. rewrite Hne. simpl String.eqb. cbv iota.
    now rewrite Hg.
  - intros e Hg. rewrite Hrun. unfold project_path. simpl String.eqb. cbv iota.
    now rewrite Hg.
Qed.

(** X13: the first failure of the pack ends the run.  When a call to the
    pack (detection, analysis or a writer) reports an error, it is the
    last event of the run, no later step runs, and [analyze] returns that
    error behind the message of the step. *)
Theorem first_failure_ends_run updateTemplates path templates environment noPrompt
    overwrite generator (w : World C) r w' ev msg :
  analyze C E updateTemplates path templates environment noPrompt overwrite generator w
    = (r, w') ->
  In ev (events_since w w') ->
  failure_of ev = Some msg ->
  r = Err msg /\ exists evs, events_since w w' = evs ++ [ev].
Proof.
  intros H Hin Hf.
  assert (Hio : forall evs, Forall (fun e => is_io e = true) evs -> ~ In ev evs).
  { intros evs Hall Hi. rewrite Forall_forall in Hall.
    apply list_elem_of_In in Hi. specialize (Hall _ Hi).
    destruct ev as [| | | | | | |? []|? ? ? []|? ? ? []|? ? ? []|? ? ? []];
      simpl in *; discriminate. }
  apply analyze_inv in H.
  destruct H as [(e & -> & Hdet)|(path'' & p & w1 & Hdet & Hgen)];
    destruct (analyze_detect_inv _ _ _ _ _ _ Hdet) as (evs0 & Hio0 & _ & Hcase).
  - destruct Hcase as [(e0 & m & _ & Hl & _)|[(q & e1 & Hp & Hr & Hl)|(q & t & p & _ & _ & Hr & _)]].
    + rewrite (events_since_app C _ _ _ Hl) in Hin. now apply Hio in Hin.
    + rewrite (events_since_app C _ _ _ Hl) in Hin |- *.
      apply in_app_or in Hin. destruct Hin as [Hin|[<-|[]]]; [now apply Hio in Hin|].
      simpl in Hf. inversion Hf; subst. inversion Hr; subst.
      split; [reflexivity|]. now exists evs0.
    + discriminate.
  - destruct Hcase as [(e0 & m & Hr & _)|[(q & e1 & _ & Hr & _)|(q & t & p0 & Hp & Hsrc & Hr & Hl & Hg)]];
      try discriminate.
    destruct (analyze_generate_first_failure _ _ _ _ _ _ _ _ _ Hgen)
      as (evs2 & Hl2 & Hlast).
    assert (Hs : events_since w w' = evs0 ++ [EDetect q None] ++ evs2).
    { apply events_since_app. now rewrite Hl2, Hl, <- !app_assoc. }
    rewrite Hs in Hin |- *.
    apply in_app_or in Hin. destruct Hin as [Hin|Hin]; [now apply Hio in Hin|].
    apply in_app_or in Hin. destruct Hin as [[<-|[]]|Hin]; [discriminate|].
    destruct (Hlast _ _ Hin Hf) as (Hr' & evs' & ->).
    split; [exact Hr'|]. exists (evs0 ++ [EDetect q None] ++ evs').
    now rewrite <- !app_assoc.
Qed.

(** X14: the errors of [analyze].  Every error [analyze] returns is one of
    the two messages of the overwrite guard or the error of a step behind
    that step's message: there are eight such messages and no other
    error. *)
Theorem analyze_error_is_known updateTemplates path templates environment noPrompt
    overwrite generator (w : World C) e w' :
  analyze C E updateTemplates path templates environment noPrompt overwrite generator w
    = (Err e, w') ->
  pipeline_error e.
Proof.
  intros H. apply analyze_inv in H.
  destruct H as [(e0 & He & Hdet)|(path'' & p & w1 & Hdet & Hgen)].
  - inversion He; subst e0.
    destruct (analyze_detect_inv _ _ _ _ _ _ Hdet) as (evs0 & _ & _ & Hcase).
    destruct Hcase as [(e0 & m & Hr & _ & Hm)|[(q & e1 & _ & Hr & _)|(q & t & p & _ & _ & Hr & _)]];
      inversion Hr; subst; right; right.
    + destruct Hm as [-> | [-> | ->]]; eexists _, _; (split; [|reflexivity]); simpl; tauto.
    + eexists _, _; (split; [|reflexivity]); simpl; tauto.
  - exact (analyze_generate_taxonomy _ _ _ _ _ _ _ _ _ Hgen).
Qed.

(** X15: the guard looks at the Dockerfile first.  When the project is
    detected and [os.Stat] finds the Dockerfile, the run without
    [overwrite] ends right after that stat with the error naming the
    Dockerfile, whether service.yml is there or not: service.yml is not
    looked at. *)
Theorem guard_names_dockerfile_first updateTemplates path templates environment
    noPrompt generator (w w1 : World C) path' p :
  analyze_detect C E updateTemplates path templates w = (Ok (path', p), w1) ->
  present E (filepath_Join E path' "Dockerfile") w1 ->
  analyze C E updateTemplates path templates environment noPrompt false generator w =
  (Err (already_exists "Dockerfile"),
   emit (EStat (filepath_Join E path' "Dockerfile") StatNil) w1).
Proof.
  intros Hdet Hd. unfold analyze. rewrite (bind_ok _ _ _ _ _ _ Hdet). simpl fst; simpl snd.
  unfold analyze_generate.
  now rewrite (bind_err _ _ _ _ _ _ (check_overwrite_refuse C E _ _ _ Hd)).
Qed.

(** X16: only a stat that succeeds counts as "exists".  When [os.Stat]
    succeeds on neither guarded file, because the file is not there or
    because the stat itself fails, the run without [overwrite] is the run
    with [overwrite]: the guard lets it through, and a file that could not
    be examined is handed to the writers like a missing one. *)
Theorem guard_needs_successful_stat updateTemplates path templates environment
    noPrompt generator (w w1 : World C) path' p :
  analyze_detect C E updateTemplates path templates w = (Ok (path', p), w1) ->
  ~ present E (filepath_Join E path' "Dockerfile") w1 ->
  ~ present E (filepath_Join E path' "service.yml") w1 ->
  analyze C E updateTemplates path templates environment noPrompt false generator w =
  analyze C E updateTemplates path templates environment noPrompt true generator w.
Proof.
  intros Hdet Hd Hs. unfold analyze. rewrite !(bind_ok _ _ _ _ _ _ Hdet).
  simpl fst; simpl snd. unfold analyze_generate.
  rewrite (bind_ok _ _ _ _ _ _ (check_overwrite_pass C E path' "Dockerfile" w1)).
  rewrite (bind_ok _ _ _ _ _ _ (check_overwrite_absent C E path' "Dockerfile" false w1 Hd)).
  rewrite (bind_ok _ _ _ _ _ _ (check_overwrite_pass C E path' "service.yml" _)).
  rewrite (bind_ok _ _ _ _ _ _
             (check_overwrite_absent C E path' "service.yml" false (emit _ w1) Hs)).
  reflexivity.
Qed.

End PipelineMore.

(** ** [main], further *)

Section MainMore.

Variable C : packs.Pack.
Variable E : Env.
Variable S : Service.

(** X17: help and version come first.  With "help", "-h", "version" or
    "-v" as first argument [main] returns at once, whatever the flags say,
    daemon mode and a configuration path included: no configuration is
    looked for, nothing is synchronised or generated, the state is
    untouched. *)
Theorem help_and_version_do_nothing args (w : World C) :
  first_arg_is args "help" "-h" = true \/ first_arg_is args "version" "-v" = true ->
  main C E S args w = (Returned, w).
Proof.
  intros [H|H]; unfold main; rewrite H; [reflexivity|].
  now destruct (first_arg_is args "help" "-h").
Qed.

(** X18: one-shot mode.  Without [-daemon], and past help and version,
    [main] is one run of [analyze] with [updateTemplates] set and the
    values of the flags; a [-c] path is not looked at.  [main] returns
    (exit status 0) when the run succeeds and exits with code 1 when it
    fails, in the state the run left. *)
Theorem one_shot_runs_analyze args (w : World C) o w' :
  flagDaemon (flags E) = false ->
  first_arg_is args "help" "-h" = false ->
  first_arg_is args "version" "-v" = false ->
  main C E S args w = (o, w') ->
  exists r,
    analyze C E true (flagPath (flags E)) (flagTemplates (flags E))
      (flagEnvironment (flags E)) (flagNoPrompt (flags E)) (flagOverwrite (flags E))
      (flagGenerator (flags E)) w = (r, w') /\
    match r with
    | Ok _ => o = Returned
    | Err _ => o = Exit 1
    end.
Proof.
  intros Hd Hh Hv. unfold main, load_config. rewrite Hh, Hv, Hd. simpl andb. cbv iota.
  destruct (analyze C E true _ _ _ _ _ _ w) as [[res|e] w2];
    intros H; inversion H; subst; eexists; split; reflexivity.
Qed.

(** X19: how daemon mode starts.  In daemon mode, past help and version,
    [main] never returns: it exits with code 1 or it serves.  It serves,
    blocked for the interrupt, only with the API started, and the
    configuration it serves with is the one read from the [-c] path, or
    the default one when no path is given, with the template path of the
    [-templates] flag put in.  It exits with code 1 only when the [-c]
    path is given and does not exist or cannot be read as a
    configuration, or when the API fails to start with that
    configuration. *)
Theorem daemon_startup args (w : World C) o w' :
  flagDaemon (flags E) = true ->
  first_arg_is args "help" "-h" = false ->
  first_arg_is args "version" "-v" = false ->
  main C E S args w = (o, w') ->
  match o with
  | Returned => False
  | Exit code =>
      code = 1 /\
      ((String.eqb (flagConfig (flags E)) "" = false /\
        (IsNotExist (stat_of E (flagConfig (flags E)) (w_fs w)) = true \/
         exists e, ReadFromFile S (flagConfig (flags E)) (w_fs w) = Err e)) \/
       (exists conf e,
          StartAPI S (set_template_path S conf (flagTemplates (flags E))) = Some e /\
          if String.eqb (flagConfig (flags E)) ""
          then conf = SetDefaults S (zeroConfig S)
          else ReadFromFile S (flagConfig (flags E)) (w_fs w) = Ok conf))
  | Serving cfg d =>
      d = daemon_init /\ StartAPI S cfg = None /\
      exists conf,
        cfg = set_template_path S conf (flagTemplates (flags E)) /\
        if String.eqb (flagConfig (flags E)) ""
        then conf = SetDefaults S (zeroConfig S)
        else ReadFromFile S (flagConfig (flags E)) (w_fs w) = Ok conf
  end.
Proof.
  intros Hd Hh Hv. unfold main, load_config, os_Stat. rewrite Hh, Hv, Hd. simpl andb.
  destruct (String.eqb (flagConfig (flags E)) "") eqn:Hc; cbn [negb].
  - destruct (StartAPI S _) eqn:Hs; intros H; inversion H; subst.
    + split; [reflexivity|]. right. do 2 eexists. split; [exact Hs|reflexivity].
    + split; [reflexivity|]. split; [exact Hs|]. eexists. split; reflexivity.
  - destruct (IsNotExist (stat_of E (flagConfig (flags E)) (w_fs w))) eqn:Hn.
    + intros H; inversion H; subst. split; [reflexivity|]. left. auto.
    + cbn [w_fs emit].
      destruct (ReadFromFile S (flagConfig (flags E)) (w_fs w)) as [conf|e] eqn:Hr.
      * destruct (StartAPI S _) eqn:Hs; intros H; inversion H; subst.
        -- split; [reflexivity|]. right. exists conf. eexists. split; [exact Hs|reflexivity].
        -- split; [reflexivity|]. split; [exact Hs|]. exists conf. split; reflexivity.
      * intros H; inversion H; subst. split; [reflexivity|]. left. split; [reflexivity|].
        right. now exists e.
Qed.

End MainMore.

(** * The further properties at work on the concrete world *)

Lemma branchURL_without_placeholder_witness :
  branchURL Demo.E3 "http://t/ruby" = "http://t/ruby".
Proof.
  apply (branchURL_without_placeholder Demo.E3 "http://t/ruby"). reflexivity.
Defined.

Lemma sync_writes_listed_files_witness :
  w_fs (snd (getTempaltes Demo.demoPack Demo.E3 Demo.cacheDir (Demo.world Demo.oneFile)))
    !! "/p/Dockerfile" = w_fs (Demo.world Demo.oneFile) !! "/p/Dockerfile" /\
  w_pack (snd (getTempaltes Demo.demoPack Demo.E3 Demo.cacheDir (Demo.world Demo.oneFile)))
    = w_pack (Demo.world Demo.oneFile).
Proof.
  destruct (sync_writes_listed_files Demo.demoPack Demo.E3 Demo.cacheDir
              (Demo.world Demo.oneFile)
              (fst (getTempaltes Demo.demoPack Demo.E3 Demo.cacheDir
                      (Demo.world Demo.oneFile)))
              (snd (getTempaltes Demo.demoPack Demo.E3 Demo.cacheDir
                      (Demo.world Demo.oneFile))))
    as (Hfs & _ & Hpk & _).
  - vm_compute. reflexivity.
  - split; [|exact Hpk].
    apply Hfs. intros body tv Hb Ht (f & Hin & Hq).
    vm_compute in Hb. inversion Hb; subst body; clear Hb.
    vm_compute in Ht. inversion Ht; subst tv; clear Ht.
    vm_compute in Hin.
    repeat (destruct Hin as [<-|Hin]; [vm_compute in Hq; discriminate Hq|]).
    destruct Hin.
Defined.

Lemma sync_gives_up_witness :
  exists w',
    getTempaltes Demo.demoPack Demo.E3 Demo.cacheDir Demo.corrupted
      = (Err "invalid character", w') /\
    w_fs w' = w_fs Demo.corrupted /\
    List.filter is_write (events_since Demo.corrupted w') = [] /\
    List.length (List.filter is_fetch (events_since Demo.corrupted w')) = 1.
Proof.
  apply (sync_gives_up_without_writing Demo.demoPack Demo.E3 Demo.cacheDir Demo.corrupted
           "invalid character").
  apply (local_malformed Demo.E3 Demo.cacheDir Demo.corrupted "manifest 3"
           (Demo.manifest "3") "garbage").
  - vm_compute. reflexivity.
  - vm_compute. reflexivity.
  - vm_compute. discriminate.
  - vm_compute. reflexivity.
  - vm_compute. reflexivity.
Defined.

Lemma failed_download_witness :
  w_fs (snd (downloadSingleFile Demo.demoPack Demo.env_full Demo.cacheDir Demo.serviceEntry
               Demo.staleService))
    !! "/home/u/.starter/service.yml.template" = Some "template ".
Proof.
  destruct (failed_download_of_a_file Demo.demoPack Demo.env_full Demo.cacheDir
              Demo.serviceEntry Demo.staleService "no space left on device"
              (snd (downloadSingleFile Demo.demoPack Demo.env_full Demo.cacheDir
                      Demo.serviceEntry Demo.staleService)))
    as [(Hh & _)|[(c & _ & Hc & _)|(c & n & Hh & _ & Hy & Hfs & _)]].
  - vm_compute. reflexivity.
  - vm_compute in Hh. discriminate Hh.
  - vm_compute in Hc. discriminate Hc.
  - vm_compute in Hh. inversion Hh; subst c.
    vm_compute in Hy. inversion Hy; subst n.
    rewrite Hfs. vm_compute. reflexivity.
Defined.

Lemma demo_healthy f :
  In f (manifestFile Demo.E3 :: all_entries (Demo.manifest "3")) ->
  healthy Demo.E3 Demo.cacheDir f.
Proof.
  intros [<-|[<-|[<-|[<-|[]]]]];
    (split; [reflexivity|]); (split; [reflexivity|]); intros k; eexists; reflexivity.
Qed.

Lemma first_use_witness :
  exists cm cs w',
    getTempaltes Demo.demoPack Demo.E3 Demo.cacheDir (Demo.world ∅) = (Ok tt, w') /\
    List.length cs = List.length (all_entries (Demo.manifest "3")) /\
    events_since (Demo.world ∅) w' =
      [ EFetch (branchURL Demo.E3 templatePath) (Ok "manifest 3");
        EStat (filepath_Join Demo.E3 Demo.cacheDir "templates.json") StatNotExist;
        EMkdirAll Demo.cacheDir None ]
      ++ download_log Demo.E3 Demo.cacheDir
           (manifestFile Demo.E3 :: all_entries (Demo.manifest "3")) (cm :: cs)
      ++ [ EReadFile (filepath_Join Demo.E3 Demo.cacheDir "templates.json") (Ok cm) ] /\
    w_fs w' = store_all Demo.E3 Demo.cacheDir
                (manifestFile Demo.E3 :: all_entries (Demo.manifest "3")) (cm :: cs)
                (w_fs (Demo.world ∅)).
Proof.
  apply (first_use_downloads_once Demo.demoPack Demo.E3 Demo.cacheDir "manifest 3"
           (Demo.manifest "3") "3" (Demo.world ∅)).
  - vm_compute. reflexivity.
  - vm_compute. reflexivity.
  - vm_compute. reflexivity.
  - reflexivity.
  - reflexivity.
  - apply demo_remote_unchanged.
  - exact demo_healthy.
Defined.

Lemma cache_holds_witness :
  exists c,
    http Demo.E3 (w_reqs (Demo.world ∅) + 2) (branchURL Demo.E3 (URL Demo.serviceEntry))
      = Ok c /\
    w_fs (snd (downloadTemplates Demo.demoPack Demo.E3 Demo.cacheDir (Demo.manifest "3")
                 (Demo.world ∅)))
      !! cache_path Demo.E3 Demo.cacheDir Demo.serviceEntry = Some c.
Proof.
  apply (cache_holds_fetched_content Demo.demoPack Demo.E3 Demo.cacheDir (Demo.manifest "3")
           (Demo.world ∅)
           (snd (downloadTemplates Demo.demoPack Demo.E3 Demo.cacheDir (Demo.manifest "3")
                   (Demo.world ∅)))
           [manifestFile Demo.E3; Demo.rubyEntry] Demo.serviceEntry [Demo.composeEntry]).
  - vm_compute. reflexivity.
  - reflexivity.
  - intros g [<-|[]]. vm_compute. discriminate.
Defined.

Lemma pack_is_addressed_witness :
  Forall (addressed "/p" "production" "/tpl" (negb true))
    (events_since (Demo.world ∅) (snd (Demo.generate false "dockerfile,service" ∅))).
Proof.
  apply (pack_is_addressed Demo.demoPack Demo.E3 true "/p" "/tpl" "production" true false
           "dockerfile,service" (Demo.world ∅)
           (fst (Demo.generate false "dockerfile,service" ∅))).
  - vm_compute. reflexivity.
  - reflexivity.
  - reflexivity.
Defined.

Lemma no_sync_witness :
  Forall (fun e => is_cache_io e = false)
    (events_since (Demo.world ∅) (snd (Demo.generate false "dockerfile,service" ∅))).
Proof.
  apply (no_sync_unless_asked Demo.demoPack Demo.E3 true "/p" "/tpl" "production" true false
           "dockerfile,service" (Demo.world ∅)
           (fst (Demo.generate false "dockerfile,service" ∅))).
  - left. discriminate.
  - vm_compute. reflexivity.
Defined.

Lemma sync_failure_witness :
  analyze Demo.demoPack (Demo.env_denied (fun _ => "3") defaultFlags) true "/p" ""
    "production" true false "dockerfile" (Demo.world ∅) =
    (Err "Failed to download latest templates due to permission denied",
     snd (getTempaltes Demo.demoPack (Demo.env_denied (fun _ => "3") defaultFlags)
            "/home/u/.starter" (Demo.world ∅))) /\
  Forall (fun ev => is_io ev = true)
    (events_since (Demo.world ∅)
       (snd (getTempaltes Demo.demoPack (Demo.env_denied (fun _ => "3") defaultFlags)
               "/home/u/.starter" (Demo.world ∅)))) /\
  w_pack (snd (getTempaltes Demo.demoPack (Demo.env_denied (fun _ => "3") defaultFlags)
                 "/home/u/.starter" (Demo.world ∅))) = w_pack (Demo.world ∅).
Proof.
  apply (sync_failure_ends_run Demo.demoPack (Demo.env_denied (fun _ => "3") defaultFlags)
           "/p" "production" true false "dockerfile" (Demo.world ∅) (Demo.world ∅) "/p"
           "permission denied").
  - reflexivity.
  - vm_compute. reflexivity.
Defined.

Lemma empty_path_witness :
  analyze Demo.demoPack Demo.E3 true "" "/tpl" "production" true false "dockerfile"
    (Demo.world ∅) =
  analyze Demo.demoPack Demo.E3 true "/work" "/tpl" "production" true false "dockerfile"
    (emit (EGetwd (Ok "/work")) (Demo.world ∅)).
Proof.
  apply (proj1 (empty_path_is_working_directory Demo.demoPack Demo.E3 true "/tpl"
                  "production" true false "dockerfile" (Demo.world ∅)) "/work").
  - reflexivity.
  - discriminate.
Defined.

Lemma first_failure_witness :
  fst (analyze Demo.brokenPack Demo.E3 true "/p" "/tpl" "production" true false "service"
         (Demo.world ∅)) =
    Err "Failed to write service.yml due to: service template not found" /\
  exists evs,
    events_since (Demo.world ∅)
      (snd (analyze Demo.brokenPack Demo.E3 true "/p" "/tpl" "production" true false
              "service" (Demo.world ∅))) =
    evs ++ [EWriteServiceYAML "/tpl" "/p" false (Some "service template not found")].
Proof.
  apply (first_failure_ends_run Demo.brokenPack Demo.E3 true "/p" "/tpl" "production"
           true false "service" (Demo.world ∅)
           (fst (analyze Demo.brokenPack Demo.E3 true "/p" "/tpl" "production" true false
                   "service" (Demo.world ∅)))
           (snd (analyze Demo.brokenPack Demo.E3 true "/p" "/tpl" "production" true false
                   "service" (Demo.world ∅)))
           (EWriteServiceYAML "/tpl" "/p" false (Some "service template not found"))).
  - vm_compute. reflexivity.
  - vm_compute. auto 10.
  - reflexivity.
Defined.

Lemma analyze_error_witness :
  pipeline_error "Failed to detect framework due to: no supported framework".
Proof.
  apply (analyze_error_is_known Demo.demoPack Demo.E3 true "/empty" "/tpl" "production"
           true false "dockerfile" (Demo.world ∅)
           "Failed to detect framework due to: no supported framework"
           (snd (analyze Demo.demoPack Demo.E3 true "/empty" "/tpl" "production"
                   true false "dockerfile" (Demo.world ∅)))).
  vm_compute. reflexivity.
Defined.

Lemma guard_dockerfile_first_witness :
  analyze Demo.demoPack Demo.E3 true "/p" "/tpl" "production" true false
    "dockerfile,service" (Demo.world Demo.bothFiles) =
  (Err (already_exists "Dockerfile"),
   emit (EStat (filepath_Join Demo.E3 "/p" "Dockerfile") StatNil)
     (Demo.detected Demo.bothFiles)).
Proof.
  apply (guard_names_dockerfile_first Demo.demoPack Demo.E3 true "/p" "/tpl" "production"
           true "dockerfile,service" (Demo.world Demo.bothFiles)
           (Demo.detected Demo.bothFiles) "/p" []).
  - vm_compute. reflexivity.
  - vm_compute. reflexivity.
Defined.

Lemma guard_needs_stat_witness :
  analyze Demo.demoPack Demo.env_blind true "/p" "/tpl" "production" true false
    "dockerfile" (Demo.world Demo.oneFile) =
  analyze Demo.demoPack Demo.env_blind true "/p" "/tpl" "production" true true
    "dockerfile" (Demo.world Demo.oneFile).
Proof.
  apply (guard_needs_successful_stat Demo.demoPack Demo.env_blind true "/p" "/tpl"
           "production" true "dockerfile" (Demo.world Demo.oneFile)
           (Demo.detected Demo.oneFile) "/p" []).
  - vm_compute. reflexivity.
  - vm_compute. discriminate.
  - vm_compute. discriminate.
Defined.

Lemma help_witness :
  main Demo.demoPack (Demo.env (fun _ => "3") (Demo.daemonFlags "/etc/none"))
    Demo.demoService ["help"; "-daemon"] (Demo.world ∅) = (Returned, Demo.world ∅).
Proof.
  apply (help_and_version_do_nothing Demo.demoPack
           (Demo.env (fun _ => "3") (Demo.daemonFlags "/etc/none")) Demo.demoService
           ["help"; "-daemon"] (Demo.world ∅)).
  left. reflexivity.
Defined.

Lemma one_shot_witness :
  exists r,
    analyze Demo.demoPack Demo.E3 true (flagPath (flags Demo.E3))
      (flagTemplates (flags Demo.E3)) (flagEnvironment (flags Demo.E3))
      (flagNoPrompt (flags Demo.E3)) (flagOverwrite (flags Demo.E3))
      (flagGenerator (flags Demo.E3)) (Demo.world ∅)
      = (r, snd (main Demo.demoPack Demo.E3 Demo.demoService [] (Demo.world ∅))) /\
    match r with
    | Ok _ => fst (main Demo.demoPack Demo.E3 Demo.demoService [] (Demo.world ∅)) = Returned
    | Err _ => fst (main Demo.demoPack Demo.E3 Demo.demoService [] (Demo.world ∅)) = Exit 1
    end.
Proof.
  apply (one_shot_runs_analyze Demo.demoPack Demo.E3 Demo.demoService [] (Demo.world ∅)
           (fst (main Demo.demoPack Demo.E3 Demo.demoService [] (Demo.world ∅)))
           (snd (main Demo.demoPack Demo.E3 Demo.demoService [] (Demo.world ∅)))).
  - reflexivity.
  - reflexivity.
  - reflexivity.
  - vm_compute. reflexivity.
Defined.

Lemma daemon_startup_witness :
  main Demo.demoPack (Demo.env (fun _ => "3") (Demo.daemonFlags "/etc/starter.conf"))
    Demo.demoService [] Demo.configured =
    (Serving (S := Demo.demoService) "port=9090;templates=" daemon_init,
     emit (EStat "/etc/starter.conf" StatNil) Demo.configured) /\
  daemon_init = daemon_init /\
  StartAPI Demo.demoService "port=9090;templates=" = None /\
  exists conf,
    "port=9090;templates="%string = set_template_path Demo.demoService conf "" /\
    ReadFromFile Demo.demoService "/etc/starter.conf" (w_fs Demo.configured) = Ok conf.
Proof.
  split; [vm_compute; reflexivity|].
  apply (daemon_startup Demo.demoPack
           (Demo.env (fun _ => "3") (Demo.daemonFlags "/etc/starter.conf"))
           Demo.demoService [] Demo.configured
           (Serving (S := Demo.demoService) "port=9090;templates=" daemon_init)
           (emit (EStat "/etc/starter.conf" StatNil) Demo.configured)).
  - reflexivity.
  - reflexivity.
  - reflexivity.
  - vm_compute. reflexivity.
Defined.
